(** * rotki: global-DB cache keys, cache tables and accounting-rule lookup

    A shallow embedding of
    - [rotkehlchen/globaldb/cache.py] (composite cache keys, the general and
      the unique cache tables, the ordered reader of curve pool tokens), and
    - [rotkehlchen/accounting/rules.py] ([AccountingRulesManager]).

    Python strings are [string]s (the keys of the cache are ASCII text),
    integers and timestamps are [Z], the two [dict[int, _]] of the rules
    manager are [gmap Z _], a SQL table is the list of its rows in rowid
    order, and a Python call that may raise returns a [Py.result]. *)

From Stdlib Require Import ZArith String Ascii List Lia Bool DecimalString DecimalNat.
From stdpp Require Import base option list sorting gmap.

Import ListNotations.
Local Open Scope string_scope.
Local Open Scope Z_scope.

#[local] Arguments String.append !_ _ / : simpl nomatch.

(** ** Python primitives used by the module *)

Module Py.

Inductive exception := ValueError.

(** The outcome of a call: a value, or a raised exception. *)
Inductive result (A : Type) :=
| Ok (a : A)
| Raise (e : exception).
Arguments Ok {A} a.
Arguments Raise {A} e.

Definition bind {A B} (m : result A) (k : A -> result B) : result B :=
  match m with
  | Ok a => k a
  | Raise e => Raise e
  end.

(** [s[n:]] *)
Fixpoint slice_from (n : nat) (s : string) : string :=
  match n, s with
  | O, _ => s
  | S _, EmptyString => EmptyString
  | S n', String _ s' => slice_from n' s'
  end.

(** [s.startswith(p)] *)
Fixpoint startswith (s p : string) : bool :=
  match p, s with
  | EmptyString, _ => true
  | String _ _, EmptyString => false
  | String a p', String b s' => Ascii.eqb a b && startswith s' p'
  end.

(** The blanks that [int] strips from the two ends of an ASCII string:
    the characters 9 to 13 and the space. *)
Definition isspace (c : ascii) : bool :=
  let n := nat_of_ascii c in
  ((9 <=? n)%nat && (n <=? 13)%nat) || (n =? 32)%nat.

Definition digit_value (c : ascii) : option Z :=
  let n := nat_of_ascii c in
  if ((48 <=? n)%nat && (n <=? 57)%nat)%bool then Some (Z.of_nat n - 48) else None.

Fixpoint lstrip (l : list ascii) : list ascii :=
  match l with
  | [] => []
  | c :: l' => if isspace c then lstrip l' else l
  end.

Definition strip (l : list ascii) : list ascii :=
  rev (lstrip (rev (lstrip l))).

(** The digits of an integer literal: decimal digits, with single
    underscores allowed between two digits. [prev] tells whether the
    character just read was a digit. *)
Fixpoint int_digits (prev : bool) (acc : Z) (l : list ascii) : option Z :=
  match l with
  | [] => if prev then Some acc else None
  | c :: l' =>
      match digit_value c with
      | Some d => int_digits true (10 * acc + d) l'
      | None =>
          if (Ascii.eqb c "_" && prev)%bool then int_digits false acc l' else None
      end
  end.

Definition int_literal (s : string) : option Z :=
  match strip (list_ascii_of_string s) with
  | c :: l' =>
      if Ascii.eqb c "+" then int_digits false 0 l'
      else if Ascii.eqb c "-" then Z.opp <$> int_digits false 0 l'
      else int_digits false 0 (c :: l')
  | [] => None
  end.

(** [int(s)] for a [str] argument: base 10, surrounding whitespace and a
    sign allowed; anything else raises [ValueError]. The bound that an
    interpreter may put on the number of digits is left out. *)
Definition int (s : string) : result Z :=
  match int_literal s with
  | Some z => Ok z
  | None => Raise ValueError
  end.

(** [str(n)] for a non-negative integer. *)
Definition str (n : nat) : string :=
  NilEmpty.string_of_uint (Nat.to_uint n).

(** [list.sort(key=...)]: a stable sort on integer keys. *)
Section Sort.
Context {A : Type} (key : A -> Z).

(** The order in which the sort leaves the elements. *)
Definition key_le (a b : A) : Prop := key a <= key b.

Fixpoint sort_insert (x : A) (l : list A) : list A :=
  match l with
  | [] => [x]
  | y :: l' => if key x <=? key y then x :: l else y :: sort_insert x l'
  end.

Fixpoint sorted (l : list A) : list A :=
  match l with
  | [] => []
  | x :: l' => sort_insert x (sorted l')
  end.
End Sort.

End Py.

#[global] Instance result_bind : MBind Py.result := fun _ _ k m => Py.bind m k.

(** ** The store *)

Module Sql.

Record row := Row { key : string; value : string; last_queried_ts : Z }.

(** Modelled from the spec: the schema of the two tables is not part of the
    sources. [general_cache] is unique on the pair (key, value);
    [unique_cache] has [key] as its primary key. *)
Record tables := Tables { general_cache : list row; unique_cache : list row }.

Definition same_key_value (r r' : row) : bool :=
  String.eqb (key r) (key r') && String.eqb (value r) (value r').

Definition same_key (r r' : row) : bool := String.eqb (key r) (key r').

(** Modelled from the spec: [INSERT OR REPLACE] of the store, which is not
    part of the sources: the rows in conflict with the new one on the
    table's uniqueness constraint are deleted and the new row is added. *)
Definition insert_or_replace (conflict : row -> row -> bool) (r : row)
    (tbl : list row) : list row :=
  List.filter (fun r' => negb (conflict r r')) tbl ++ [r].

Definition executemany (conflict : row -> row -> bool) (rs : list row)
    (tbl : list row) : list row :=
  fold_left (fun t r => insert_or_replace conflict r t) rs tbl.

(** [WHERE key = ?] *)
Definition where_key (k : string) (tbl : list row) : list row :=
  List.filter (fun r => String.eqb (key r) k) tbl.

(** The lower-case form of a letter of the ASCII alphabet; every other
    character is left as it is. *)
Definition lower (c : ascii) : ascii :=
  let n := nat_of_ascii c in
  if ((65 <=? n)%nat && (n <=? 90)%nat)%bool then ascii_of_nat (n + 32) else c.

Fixpoint lower_string (s : string) : string :=
  match s with
  | EmptyString => EmptyString
  | String c s' => String (lower c) (lower_string s')
  end.

(** Modelled from the spec: the [LIKE] operator of the store, which is not
    part of the sources. In the pattern [%] stands for any run of
    characters and [_] for any one character; every other character stands
    for itself and, as the operator of the store has it when nothing sets
    it otherwise, a letter of the ASCII alphabet for both of its cases. *)
Fixpoint like (pat : string) : string -> bool :=
  match pat with
  | EmptyString =>
      fun s => match s with EmptyString => true | String _ _ => false end
  | String c pat' =>
      if Ascii.eqb c "%" then
        fix star (s : string) : bool :=
          like pat' s
          || match s with
             | EmptyString => false
             | String _ s' => star s'
             end
      else
        fun s =>
          match s with
          | EmptyString => false
          | String d s' =>
              (Ascii.eqb c "_" || Ascii.eqb (lower c) (lower d)) && like pat' s'
          end
  end.

(** The characters with a meaning of their own in a pattern. *)
Definition wildcard (c : ascii) : bool := Ascii.eqb c "%" || Ascii.eqb c "_".

Fixpoint wildcard_free (s : string) : bool :=
  match s with
  | EmptyString => true
  | String c s' => negb (wildcard c) && wildcard_free s'
  end.

(** [WHERE key LIKE ?] *)
Definition where_key_like (pat : string) (tbl : list row) : list row :=
  List.filter (fun r => like pat (key r)) tbl.

(** [ORDER BY last_queried_ts ASC] *)
Definition order_by_last_queried_ts (rs : list row) : list row :=
  Py.sorted last_queried_ts rs.

(** [cursor.fetchone()] *)
Definition fetchone {A} (rs : list A) : option A := head rs.

End Sql.

(** ** [rotkehlchen/globaldb/cache.py] *)

(** A part of a cache key: a member of the [CacheType] enumeration, or a
    plain string. *)
Inductive key_part (CacheType : Type) :=
| Tag (c : CacheType)
| Raw (s : string).
Arguments Tag {CacheType} c.
Arguments Raw {CacheType} s.

Section Cache.
(** The enumeration [CacheType] and its [serialize] method, its member
    [CURVE_POOL_TOKENS] and the constant [ZERO_ADDRESS] are imported by the
    module from files that are not part of the sources. *)
Context {CacheType : Type}.
Variable serialize : CacheType -> string.
Variable CURVE_POOL_TOKENS : CacheType.
Variable ZERO_ADDRESS : string.

(** The piece that one part contributes to the key. *)
Definition emitted (part : key_part CacheType) : string :=
  match part with
  | Tag c => serialize c
  | Raw s => s
  end.

(** The loop of [compute_cache_key]: [cache_key] starts empty and every
    part is appended to it. *)
Definition compute_cache_key (key_parts : list (key_part CacheType)) : string :=
  fold_left
    (fun cache_key part =>
       match part with
       | Tag c => cache_key ++ serialize c
       | Raw s => cache_key ++ s
       end)
    key_parts "".

Definition BASE_POOL_TOKENS_KEY_LENGTH : nat :=
  String.length (compute_cache_key [Tag CURVE_POOL_TOKENS; Raw ZERO_ADDRESS]).

Definition globaldb_set_general_cache_values_at_ts (db : Sql.tables)
    (key_parts : list (key_part CacheType)) (values : list string)
    (timestamp : Z) : Sql.tables :=
  let cache_key := compute_cache_key key_parts in
  let tuples := List.map (fun value => Sql.Row cache_key value timestamp) values in
  Sql.Tables
    (Sql.executemany Sql.same_key_value tuples (Sql.general_cache db))
    (Sql.unique_cache db).

Definition globaldb_get_general_cache_values (db : Sql.tables)
    (key_parts : list (key_part CacheType)) : list string :=
  let cache_key := compute_cache_key key_parts in
  List.map Sql.value (Sql.where_key cache_key (Sql.general_cache db)).

Definition globaldb_set_unique_cache_value_at_ts (db : Sql.tables)
    (key_parts : list (key_part CacheType)) (value : string)
    (timestamp : Z) : Sql.tables :=
  let cache_key := compute_cache_key key_parts in
  Sql.Tables
    (Sql.general_cache db)
    (Sql.insert_or_replace Sql.same_key (Sql.Row cache_key value timestamp)
       (Sql.unique_cache db)).

Definition globaldb_get_unique_cache_value (db : Sql.tables)
    (key_parts : list (key_part CacheType)) : option string :=
  let cache_key := compute_cache_key key_parts in
  match Sql.fetchone (Sql.where_key cache_key (Sql.unique_cache db)) with
  | None => None
  | Some result => Some (Sql.value result)
  end.

Definition globaldb_get_general_cache_like (db : Sql.tables)
    (key_parts : list (key_part CacheType)) : list string :=
  let cache_key := compute_cache_key key_parts in
  List.map Sql.value
    (Sql.where_key_like (cache_key ++ "%") (Sql.general_cache db)).

Definition globaldb_get_general_cache_keys_and_values_like (db : Sql.tables)
    (key_parts : list (key_part CacheType)) : list (string * string) :=
  let cache_key := compute_cache_key key_parts in
  List.map (fun r => (Sql.key r, Sql.value r))
    (Sql.where_key_like (cache_key ++ "%") (Sql.general_cache db)).

Definition globaldb_get_general_cache_last_queried_ts_by_key (db : Sql.tables)
    (key_parts : list (key_part CacheType)) : Z :=
  let cache_key := compute_cache_key key_parts in
  match
    Sql.fetchone
      (Sql.order_by_last_queried_ts
         (Sql.where_key cache_key (Sql.general_cache db)))
  with
  | None => 0
  | Some result => Sql.last_queried_ts result
  end.

(** Modelled from the spec: [string_to_evm_address] is imported from a file
    that is not part of the sources; the reader returns the stored values,
    so it is the cast of a string to an address, which changes nothing. *)
Definition string_to_evm_address (value : string) : string := value.

(** The loop of [read_curve_pool_tokens], which appends to
    [found_tokens]; [int] may raise. *)
Fixpoint collect_found_tokens (tokens_data : list (string * string))
    (found_tokens : list (Z * string)) : Py.result (list (Z * string)) :=
  match tokens_data with
  | [] => Py.Ok found_tokens
  | (key, address) :: rest =>
      index ← Py.int (Py.slice_from BASE_POOL_TOKENS_KEY_LENGTH key);
      collect_found_tokens rest
        (found_tokens ++ [(index, string_to_evm_address address)])
  end.

Definition read_curve_pool_tokens (db : Sql.tables) (pool_address : string)
    : Py.result (list string) :=
  let tokens_data :=
    globaldb_get_general_cache_keys_and_values_like db
      [Tag CURVE_POOL_TOKENS; Raw pool_address] in
  found_tokens ← collect_found_tokens tokens_data [];
  Py.Ok (List.map snd (Py.sorted fst found_tokens)).

(** Modelled from the spec: the writer of the tokens of a pool is not part
    of the sources. The token of index [i] is written under the key made
    of the tag of the pool tokens, the address of the pool and [str(i)],
    each token by a call of its own, at the time [timestamp_of i]. *)
Definition write_pool_token (timestamp_of : nat -> Z) (pool_address : string)
    (db : Sql.tables) (entry : nat * string) : Sql.tables :=
  globaldb_set_general_cache_values_at_ts db
    [Tag CURVE_POOL_TOKENS; Raw pool_address; Raw (Py.str (fst entry))]
    [snd entry] (timestamp_of (fst entry)).

Definition write_pool_tokens (timestamp_of : nat -> Z) (pool_address : string)
    (entries : list (nat * string)) (db : Sql.tables) : Sql.tables :=
  fold_left (write_pool_token timestamp_of pool_address) entries db.

End Cache.

(** ** [rotkehlchen/accounting/rules.py] *)

(** An event is a [HistoryBaseEntry]; the events of the subclass [EvmEvent]
    carry a counterparty, which may be [None]. *)
Inductive history_event (EventType EventSubType : Type) :=
| HistoryBaseEntry (event_type : EventType) (event_subtype : EventSubType)
| EvmEvent (event_type : EventType) (event_subtype : EventSubType)
    (counterparty : option string).
Arguments HistoryBaseEntry {EventType EventSubType}.
Arguments EvmEvent {EventType EventSubType}.

(** A read of one of the two dictionaries of the manager. *)
Inductive dict_read :=
| ReadSettings (identifier : Z)
| ReadCallbacks (identifier : Z).

Section Rules.
(** The event types and subtypes, the rule and callback objects and
    [get_event_type_identifier] come from files that are not part of the
    sources. *)
Context {EventType EventSubType BaseEventSettings EventsAccountantCallback : Type}.
Variable get_event_type_identifier :
  EventType -> EventSubType -> option string -> Z.

Record AccountingRulesManager := Manager {
  event_settings : gmap Z BaseEventSettings;
  event_callbacks : gmap Z EventsAccountantCallback;
}.

Definition isinstance_EvmEvent (event : history_event EventType EventSubType) : bool :=
  match event with
  | HistoryBaseEntry _ _ => false
  | EvmEvent _ _ _ => true
  end.

(** Modelled from the spec: the method [get_type_identifier] of the events
    is not part of the sources. It gives the identifier of the type, the
    subtype and, for an event that carries one and when asked to include
    it, the counterparty. *)
Definition get_type_identifier (event : history_event EventType EventSubType)
    (include_counterparty : bool) : Z :=
  match event with
  | HistoryBaseEntry ty sub => get_event_type_identifier ty sub None
  | EvmEvent ty sub counterparty =>
      get_event_type_identifier ty sub
        (if include_counterparty then counterparty else None)
  end.

(** [__init__] *)
Definition init : AccountingRulesManager := Manager ∅ ∅.

(** [_query_db_rules], on the rules that the database returns. *)
Definition _query_db_rules
    (rules_info : list ((EventType * EventSubType * option string) * BaseEventSettings))
    (self : AccountingRulesManager) : AccountingRulesManager :=
  Manager
    (fold_left
       (fun settings rule_info =>
          let '((ty, sub, counterparty), rule) := rule_info in
          <[get_event_type_identifier ty sub counterparty := rule]> settings)
       rules_info (event_settings self))
    (event_callbacks self).

(** [get_event_settings], with the reads of the dictionaries that it makes,
    in order. *)
Definition get_event_settings_reads (self : AccountingRulesManager)
    (event : history_event EventType EventSubType)
    : (option BaseEventSettings * option EventsAccountantCallback) * list dict_read :=
  let event_identifier := get_type_identifier event true in
  let rule := event_settings self !! event_identifier in
  if negb (isinstance_EvmEvent event) || bool_decide (is_Some rule) then
    ((rule, event_callbacks self !! event_identifier),
     [ReadSettings event_identifier; ReadCallbacks event_identifier])
  else
    let event_identifier' := get_type_identifier event false in
    ((event_settings self !! event_identifier',
      event_callbacks self !! event_identifier'),
     [ReadSettings event_identifier; ReadSettings event_identifier';
      ReadCallbacks event_identifier']).

Definition get_event_settings (self : AccountingRulesManager)
    (event : history_event EventType EventSubType)
    : option BaseEventSettings * option EventsAccountantCallback :=
  fst (get_event_settings_reads self event).

(** [reset], on the rules that the database returns and the callbacks that
    the aggregators return. *)
Definition reset
    (rules_info : list ((EventType * EventSubType * option string) * BaseEventSettings))
    (callbacks : gmap Z EventsAccountantCallback)
    (self : AccountingRulesManager) : AccountingRulesManager :=
  Manager (event_settings (_query_db_rules rules_info self)) callbacks.

Definition clean_rules (self : AccountingRulesManager) : AccountingRulesManager :=
  Manager ∅ ∅.

(** The calls that a client makes on the manager. *)
Inductive call :=
| CallGetEventSettings (event : history_event EventType EventSubType)
| CallCleanRules
| CallReset
    (rules_info : list ((EventType * EventSubType * option string) * BaseEventSettings))
    (callbacks : gmap Z EventsAccountantCallback).

Definition is_reset (c : call) : bool :=
  match c with
  | CallReset _ _ => true
  | _ => false
  end.

Definition run_call (self : AccountingRulesManager) (c : call) : AccountingRulesManager :=
  match c with
  | CallGetEventSettings _ => self
  | CallCleanRules => clean_rules self
  | CallReset rules_info callbacks => reset rules_info callbacks self
  end.

Definition run_calls (cs : list call) (self : AccountingRulesManager)
    : AccountingRulesManager :=
  fold_left run_call cs self.

End Rules.

(** ** An instance, on which the statements below are run *)

Module Sample.

Inductive cache_type := CURVE_LP_TOKENS | CURVE_POOL_TOKENS.

Definition serialize (c : cache_type) : string :=
  match c with
  | CURVE_LP_TOKENS => "CURVE_LP_TOKENS"
  | CURVE_POOL_TOKENS => "CURVE_POOL_TOKENS"
  end.

Definition ZERO_ADDRESS : string := "0x0000000000000000000000000000000000000000".
Definition pool_a : string := "0xbEbc44782C7dB0a1A60Cb6fe97d0b483032FF1C7".
Definition pool_b : string := "0xDC24316b9AE028F1497c275EB9192a3Ea0f67022".
Definition dai : string := "0x6B175474E89094C44Da98b954EedeAC495271d0F".
Definition usdc : string := "0xA0b86991c6218b36c1d19D4a2e9Eb0cE3606eB48".
Definition usdt : string := "0xdAC17F958D2ee523a2206206994597C13D831ec7".

Definition empty_db : Sql.tables := Sql.Tables [] [].

Inductive event_type := SPEND | RECEIVE.
Inductive event_subtype := NONE | FEE.

Definition type_code (ty : event_type) : Z :=
  match ty with SPEND => 1 | RECEIVE => 2 end.
Definition subtype_code (sub : event_subtype) : Z :=
  match sub with NONE => 1 | FEE => 2 end.

(** An identifier in the manner of the one that the program computes: an
    integer made from the type, the subtype and the counterparty. *)
Definition get_event_type_identifier (ty : event_type) (sub : event_subtype)
    (counterparty : option string) : Z :=
  match counterparty with
  | None => 10 * type_code ty + subtype_code sub
  | Some c => 100 * Z.of_nat (String.length c) + 10 * type_code ty + subtype_code sub
  end.

(** Managers whose rule and callback objects are names. One holds a rule
    for spends with no counterparty; the other holds no rule, and a
    callback under the identifier of spends with no counterparty. *)
Definition manager_with_generic_rule : @AccountingRulesManager string string :=
  Manager
    {[ get_event_type_identifier SPEND NONE None := "rule for spend" ]}
    {[ get_event_type_identifier SPEND NONE None := "callback for spend" ]}.

Definition manager_with_callback_only : @AccountingRulesManager string string :=
  Manager ∅ {[ get_event_type_identifier SPEND NONE None := "callback for spend" ]}.

(** A store with two rows whose keys differ from [VELO0xab] in the case
    of their letters only, the first one in its first eight characters. *)
Definition db_with_case_variant : Sql.tables :=
  Sql.Tables [Sql.Row "velo0xAB0" dai 1; Sql.Row "VELO0xab1" usdc 1] [].

(** A store with one row for the pool, whose key has no index. *)
Definition db_with_bad_key : Sql.tables :=
  Sql.Tables
    [Sql.Row (compute_cache_key serialize [Tag CURVE_POOL_TOKENS; Raw pool_a; Raw "one"])
       dai 1700000000]
    [].

End Sample.

(** ** The rest of [rotkehlchen/globaldb/cache.py] *)

Section CacheRest.
Context {CacheType : Type}.
Variable serialize : CacheType -> string.

(** [ts_now()] reads the clock: [now] is the time that it returns. *)
Definition globaldb_set_general_cache_values (now : Z) (db : Sql.tables)
    (key_parts : list (key_part CacheType)) (values : list string) : Sql.tables :=
  let timestamp := now in
  globaldb_set_general_cache_values_at_ts serialize db key_parts values timestamp.

Definition globaldb_set_unique_cache_value (now : Z) (db : Sql.tables)
    (key_parts : list (key_part CacheType)) (value : string) : Sql.tables :=
  let timestamp := now in
  globaldb_set_unique_cache_value_at_ts serialize db key_parts value timestamp.

Definition globaldb_get_unique_cache_last_queried_ts_by_key (db : Sql.tables)
    (key_parts : list (key_part CacheType)) : Z :=
  let cache_key := compute_cache_key serialize key_parts in
  match
    Sql.fetchone
      (Sql.order_by_last_queried_ts
         (Sql.where_key cache_key (Sql.unique_cache db)))
  with
  | None => 0
  | Some result => Sql.last_queried_ts result
  end.

End CacheRest.

(** The uniqueness constraint of the general cache: no two rows with the
    same key and value. *)
Definition general_cache_constraint (db : Sql.tables) : Prop :=
  NoDup (List.map (fun r => (Sql.key r, Sql.value r)) (Sql.general_cache db)).

(** A string with no [%] in it. *)
Fixpoint percent_free (s : string) : bool :=
  match s with
  | EmptyString => true
  | String c s' => negb (Ascii.eqb c "%") && percent_free s'
  end.

(** ** The rules that a list from the database registers *)

Section RegisteredRules.
Context {EventType EventSubType BaseEventSettings : Type}.
Variable get_event_type_identifier :
  EventType -> EventSubType -> option string -> Z.

(** The identifier under which [_query_db_rules] stores an entry. *)
Definition rule_identifier
    (rule_info : (EventType * EventSubType * option string) * BaseEventSettings) : Z :=
  let '((ty, sub, counterparty), _) := rule_info in
  get_event_type_identifier ty sub counterparty.

(** The rule of the last entry of the list with the identifier [k]. *)
Fixpoint registered_rule
    (rules_info : list ((EventType * EventSubType * option string) * BaseEventSettings))
    (k : Z) : option BaseEventSettings :=
  match rules_info with
  | [] => None
  | rule_info :: rest =>
      match registered_rule rest k with
      | Some rule => Some rule
      | None => if Z.eqb (rule_identifier rule_info) k then Some (snd rule_info) else None
      end
  end.

End RegisteredRules.

(** ** [rotkehlchen/data_import/importers/cointracking.py] *)

Module Cointracking.

(** The key of a [KeyError]: a string, or an integer. *)
Inductive dict_key :=
| StrKey (s : string)
| IntKey (n : Z).

(** The exceptions that the module raises, handles or lets through.
    [InputError] carries the key and the row that its message shows. *)
Inductive exception :=
| KeyError (key : dict_key)
| IndexError
| StopIteration
| UnsupportedCSVEntry (msg : string)
| UnknownAsset (identifier : string)
| DeserializationError (msg : string)
| InputError (key : dict_key) (row : list string)
| OtherException (name : string).

Inductive outcome (A : Type) :=
| Return (a : A)
| Raise (e : exception).
Arguments Return {A} a.
Arguments Raise {A} e.

(** [mapping[n]] for [mapping = {1: 'Buy', 2: 'Sell', 3: 'Fee'}] *)
Definition mapping (n : Z) : outcome string :=
  if n =? 1 then Return "Buy"
  else if n =? 2 then Return "Sell"
  else if n =? 3 then Return "Fee"
  else Raise (KeyError (IntKey n)).

(** The list comprehension of [remap_header]; [cur_count] is the number
    that [next(cur_count)] returns next. *)
Fixpoint remap_header_from (cur_count : Z) (fieldnames : list string)
    : outcome (list string) :=
  match fieldnames with
  | [] => Return []
  | f :: rest =>
      if Py.startswith f "Cur." then
        match mapping cur_count with
        | Return name =>
            match remap_header_from (cur_count + 1) rest with
            | Return l => Return (("Cur." ++ name) :: l)
            | Raise e => Raise e
            end
        | Raise e => Raise e
        end
      else
        match remap_header_from cur_count rest with
        | Return l => Return (f :: l)
        | Raise e => Raise e
        end
  end.

Definition remap_header (fieldnames : list string) : outcome (list string) :=
  remap_header_from 1 fieldnames.

(** The fields of a header that start with [Cur.] *)
Definition cur_fields (fieldnames : list string) : list string :=
  List.filter (fun f => Py.startswith f "Cur.") fieldnames.

(** The names that the counter of [remap_header] still has to give. *)
Definition cur_names_from (cur_count : Z) : list string :=
  if cur_count =? 1 then ["Cur.Buy"; "Cur.Sell"; "Cur.Fee"]
  else if cur_count =? 2 then ["Cur.Sell"; "Cur.Fee"]
  else if cur_count =? 3 then ["Cur.Fee"]
  else [].

(** The members of [Location] that [exchange_row_to_location] returns. *)
Inductive Location :=
| EXTERNAL | KRAKEN | POLONIEX | BITTREX | BINANCE | BITMEX | COINBASE
| COINBASEPRO | GEMINI | BITSTAMP | BITFINEX | KUCOIN.

Definition exchange_row_to_location (entry : string) : outcome Location :=
  if String.eqb entry "no exchange" then Return EXTERNAL
  else if String.eqb entry "Kraken" then Return KRAKEN
  else if String.eqb entry "Poloniex" then Return POLONIEX
  else if String.eqb entry "Bittrex" then Return BITTREX
  else if String.eqb entry "Binance" then Return BINANCE
  else if String.eqb entry "Bitmex" then Return BITMEX
  else if String.eqb entry "Coinbase" then Return COINBASE
  else if String.eqb entry "CoinbasePro" || String.eqb entry "GDAX" then Return COINBASEPRO
  else if String.eqb entry "Gemini" then Return GEMINI
  else if String.eqb entry "Bitstamp" then Return BITSTAMP
  else if String.eqb entry "Bitfinex" then Return BITFINEX
  else if String.eqb entry "KuCoin" then Return KUCOIN
  else if String.eqb entry "ETH Transaction" then
    Raise (UnsupportedCSVEntry
             ("Not importing ETH Transactions from Cointracking. Cointracking does not "
              ++ "export enough data for them. Simply enter your ethereum accounts and all "
              ++ "your transactions will be auto imported directly from the chain"))
  else if String.eqb entry "BTC Transaction" then
    Raise (UnsupportedCSVEntry
             ("Not importing BTC Transactions from Cointracking. Cointracking does not "
              ++ "export enough data for them. Simply enter your BTC accounts and all "
              ++ "your transactions will be auto imported directly from the chain"))
  else Return EXTERNAL.

(** [dict(zip(header, row))]: the pairs stop with the shorter list, and a
    later pair replaces an earlier one with the same key. *)
Definition dict_zip (header row : list string) : gmap string string :=
  fold_left (fun d kv => <[fst kv := snd kv]> d) (List.combine header row) ∅.

(** The exceptions that the [try] statement of [_import_csv] catches. *)
Definition caught (e : exception) : bool :=
  match e with
  | UnknownAsset _ | IndexError | DeserializationError _
  | UnsupportedCSVEntry _ | KeyError _ => true
  | _ => false
  end.

Section ImportLoop.
(** The state of the importer and of the database, and
    [_consume_cointracking_entry] as a function of it: the state that the
    call leaves, and the exception that it raises, if any. *)
Context {State : Type}.
Variable _consume_cointracking_entry :
  State -> gmap string string -> State * option exception.

(** The loop of [_import_csv] over the rows after the header; [warnings]
    holds the messages given to [msg_aggregator.add_warning]. *)
Fixpoint import_rows (header : list string) (rows : list (list string))
    (st : State) (warnings : list string)
    : (State * list string) * outcome unit :=
  match rows with
  | [] => ((st, warnings), Return tt)
  | row :: rest =>
      let '(st', raised) := _consume_cointracking_entry st (dict_zip header row) in
      match raised with
      | None => import_rows header rest st' warnings
      | Some (UnknownAsset identifier) =>
          import_rows header rest st'
            (warnings ++
               [("During cointracking CSV import found action with unknown asset "
                   ++ identifier ++ ". Ignoring entry")%string])%list
      | Some IndexError =>
          import_rows header rest st'
            (warnings ++
               ["During cointracking CSV import found entry with unexpected number of columns"])%list
      | Some (DeserializationError msg) =>
          import_rows header rest st'
            (warnings ++
               [("Error during cointracking CSV import deserialization. Error was "
                   ++ msg ++ ". Ignoring entry")%string])%list
      | Some (UnsupportedCSVEntry msg) =>
          import_rows header rest st' (warnings ++ [msg])%list
      | Some (KeyError key) => ((st', warnings), Raise (InputError key row))
      | Some e => ((st', warnings), Raise e)
      end
  end.

(** [_import_csv], on the rows that the reader of the file gives. *)
Definition _import_csv (data : list (list string)) (st : State)
    (warnings : list string) : (State * list string) * outcome unit :=
  match data with
  | [] => ((st, warnings), Raise StopIteration)
  | first :: rows =>
      match remap_header first with
      | Return header => import_rows header rows st warnings
      | Raise e => ((st, warnings), Raise e)
      end
  end.

(** The exceptions after which the loop goes on with the next row. *)
Definition skipped (raised : option exception) : bool :=
  match raised with
  | None => true
  | Some (UnknownAsset _) | Some IndexError
  | Some (DeserializationError _) | Some (UnsupportedCSVEntry _) => true
  | Some _ => false
  end.

(** The state after the rows are consumed one after the other. *)
Definition consume_all (header : list string) (rows : list (list string))
    (st : State) : State :=
  fold_left
    (fun st row => fst (_consume_cointracking_entry st (dict_zip header row)))
    rows st.

(** Every row is consumed with an outcome after which the loop goes on. *)
Fixpoint all_skipped (header : list string) (rows : list (list string))
    (st : State) : bool :=
  match rows with
  | [] => true
  | row :: rest =>
      let '(st', raised) := _consume_cointracking_entry st (dict_zip header row) in
      skipped raised && all_skipped header rest st'
  end.

End ImportLoop.

End Cointracking.

(** ** [rotkehlchen/chain/ethereum/decoding/liquity/decoder.py] *)

Module Liquity.

(** The members of the two enumerations that the decoder names; the other
    members are told apart by their names. *)
Inductive HistoryEventType :=
| RECEIVE | SPEND | WITHDRAWAL | DEPOSIT
| OtherEventType (name : string).

Inductive HistoryEventSubType :=
| NONE | GENERATE_DEBT | PAYBACK_DEBT | DEPOSIT_ASSET | REMOVE_ASSET
| OtherEventSubType (name : string).

#[global] Instance HistoryEventType_eq_dec : EqDecision HistoryEventType.
Proof. solve_decision. Defined.

#[global] Instance HistoryEventSubType_eq_dec : EqDecision HistoryEventSubType.
Proof. solve_decision. Defined.

#[global] Instance byte_eq_dec : EqDecision Byte.byte := Byte.byte_eq_dec.

Definition BALANCE_UPDATE : list Byte.byte :=
  [Byte.xca; Byte.x23; Byte.x2b; Byte.x5a; Byte.xbb; Byte.x98; Byte.x8c; Byte.x54;
   Byte.x0b; Byte.x95; Byte.x9f; Byte.xf6; Byte.xc3; Byte.xbf; Byte.xae; Byte.x3e;
   Byte.x97; Byte.xff; Byte.xf9; Byte.x64; Byte.xfd; Byte.x09; Byte.x8c; Byte.x50;
   Byte.x8f; Byte.x96; Byte.x13; Byte.xc0; Byte.xa6; Byte.xbf; Byte.x1a; Byte.x80].

Definition CPT_LIQUITY : string := "liquity".

Record TxEventSettings := {
  taxable : bool;
  count_entire_amount_spend : bool;
  count_cost_basis_pnl : bool;
  method : string;
  take : Z;
  multitake_treatment : option string;
}.

(** The outcome of a call of the decoder: what it returns, or the
    [IndexError] of [topics[0]]. *)
Inductive outcome (A : Type) :=
| Return (a : A)
| RaiseIndexError.
Arguments Return {A} a.
Arguments RaiseIndexError {A}.

Section Decoder.
(** The assets, with their equality, the two assets [A_LUSD] and [A_ETH]
    and the symbol of an asset; the amounts, with the text that an
    f-string gives for one; what else an event or a log holds; the action
    items; and [get_tx_event_type_identifier]: all of these come from
    files that are not part of the sources. *)
Context {Asset Amount Rest ActionItem : Type} `{EqDecision Asset}.
Variable A_LUSD A_ETH : Asset.
Variable symbol : Asset -> string.
Variable amount_str : Amount -> string.
Variable get_tx_event_type_identifier :
  HistoryEventType -> HistoryEventSubType -> string -> string.

Record HistoryBaseEntry := {
  event_type : HistoryEventType;
  event_subtype : HistoryEventSubType;
  asset : Asset;
  balance_amount : Amount;
  counterparty : option string;
  notes : option string;
  other_fields : Rest;
}.

Record EthereumTxReceiptLog := { topics : list (list Byte.byte) }.

(** The body of the loop of [_decode_trove_operations], on one event. *)
Definition decode_event (event : HistoryBaseEntry) : HistoryBaseEntry :=
  if bool_decide (event_type event = RECEIVE) && bool_decide (asset event = A_LUSD) then
    {| event_type := WITHDRAWAL;
       event_subtype := GENERATE_DEBT;
       asset := asset event;
       balance_amount := balance_amount event;
       counterparty := Some CPT_LIQUITY;
       notes := Some ("Generate " ++ amount_str (balance_amount event) ++ " "
                        ++ symbol A_LUSD ++ " from liquity");
       other_fields := other_fields event |}
  else if bool_decide (event_type event = SPEND) && bool_decide (asset event = A_LUSD) then
    {| event_type := SPEND;
       event_subtype := PAYBACK_DEBT;
       asset := asset event;
       balance_amount := balance_amount event;
       counterparty := Some CPT_LIQUITY;
       notes := Some ("Return " ++ amount_str (balance_amount event) ++ " "
                        ++ symbol A_LUSD ++ " to liquity");
       other_fields := other_fields event |}
  else if bool_decide (event_type event = SPEND)
          && bool_decide (event_subtype event = NONE)
          && bool_decide (asset event = A_ETH) then
    {| event_type := DEPOSIT;
       event_subtype := DEPOSIT_ASSET;
       asset := asset event;
       balance_amount := balance_amount event;
       counterparty := Some CPT_LIQUITY;
       notes := Some ("Deposit " ++ amount_str (balance_amount event) ++ " "
                        ++ symbol (asset event) ++ " as collateral for liquity");
       other_fields := other_fields event |}
  else if bool_decide (event_type event = RECEIVE)
          && bool_decide (event_subtype event = NONE)
          && bool_decide (asset event = A_ETH) then
    {| event_type := WITHDRAWAL;
       event_subtype := REMOVE_ASSET;
       asset := asset event;
       balance_amount := balance_amount event;
       counterparty := Some CPT_LIQUITY;
       notes := Some ("Withdraw " ++ amount_str (balance_amount event) ++ " "
                        ++ symbol (asset event) ++ " collateral from liquity");
       other_fields := other_fields event |}
  else event.

(** [_decode_trove_operations]: the pair that it returns, and the events
    of [decoded_events] as the call leaves them. *)
Definition _decode_trove_operations (tx_log : EthereumTxReceiptLog)
    (decoded_events : list HistoryBaseEntry)
    : outcome ((option HistoryBaseEntry * option ActionItem) * list HistoryBaseEntry) :=
  match topics tx_log with
  | [] => RaiseIndexError
  | topic :: _ =>
      if negb (bool_decide (topic = BALANCE_UPDATE)) then
        Return ((None, None), decoded_events)
      else
        Return ((None, None), List.map decode_event decoded_events)
  end.

Definition counterparties : list string := [CPT_LIQUITY].

(** [event_settings]: the dictionary of the display, built entry after
    entry. *)
Definition event_settings : gmap string TxEventSettings :=
  <[get_tx_event_type_identifier WITHDRAWAL REMOVE_ASSET CPT_LIQUITY :=
      {| taxable := false; count_entire_amount_spend := false;
         count_cost_basis_pnl := false; method := "acquisition"; take := 1;
         multitake_treatment := None |}]>
  (<[get_tx_event_type_identifier WITHDRAWAL GENERATE_DEBT CPT_LIQUITY :=
      {| taxable := false; count_entire_amount_spend := false;
         count_cost_basis_pnl := false; method := "acquisition"; take := 1;
         multitake_treatment := None |}]>
  (<[get_tx_event_type_identifier SPEND PAYBACK_DEBT CPT_LIQUITY :=
      {| taxable := false; count_entire_amount_spend := false;
         count_cost_basis_pnl := false; method := "spend"; take := 1;
         multitake_treatment := None |}]>
  (<[get_tx_event_type_identifier DEPOSIT DEPOSIT_ASSET CPT_LIQUITY :=
      {| taxable := false; count_entire_amount_spend := false;
         count_cost_basis_pnl := false; method := "spend"; take := 1;
         multitake_treatment := None |}]> ∅))).

End Decoder.

End Liquity.

(** ** Cases, on which the statements on the rest of the code are run *)

Module Cases.

(** A store with two values under the key of a pool. *)
Definition db_two_values : Sql.tables :=
  globaldb_set_general_cache_values_at_ts Sample.serialize Sample.empty_db
    [Tag Sample.CURVE_LP_TOKENS; Raw Sample.pool_a] [Sample.dai; Sample.usdc] 10.

(** A store with the tokens of the pool [pool_a]. *)
Definition db_pool_a : Sql.tables :=
  write_pool_tokens Sample.serialize Sample.CURVE_POOL_TOKENS
    (fun i => 1700000000 + Z.of_nat i) Sample.pool_a
    [(1%nat, Sample.usdc); (0%nat, Sample.dai)] Sample.empty_db.

(** The rules of a database: one for spends with no counterparty, one for
    the fees that are received from the counterparty [foo]. *)
Definition rules_of_db
    : list ((Sample.event_type * Sample.event_subtype * option string) * string) :=
  [((Sample.SPEND, Sample.NONE, None), "rule for spend");
   ((Sample.RECEIVE, Sample.FEE, Some "foo"), "rule for fees of foo")].

Definition callbacks_of_aggregators : gmap Z string :=
  {[ Sample.get_event_type_identifier Sample.RECEIVE Sample.FEE (Some "foo")
       := "callback for fees of foo" ]}.

(** A manager that holds one rule, for fees that are spent. *)
Definition manager_with_old_rule : @AccountingRulesManager string string :=
  Manager
    {[ Sample.get_event_type_identifier Sample.SPEND Sample.FEE None
         := "rule for fees" ]}
    ∅.

(** The first line of a cointracking file, and its header. *)
Definition first_line : list string :=
  ["Type"; "Buy"; "Cur."; "Sell"; "Cur."; "Fee"; "Cur."; "Exchange"; "Comment"; "Date"].

Definition header : list string :=
  ["Type"; "Buy"; "Cur.Buy"; "Sell"; "Cur.Sell"; "Fee"; "Cur.Fee"; "Exchange";
   "Comment"; "Date"].

Definition trade_row : list string :=
  ["Trade"; "1"; "BTC"; "30000"; "EUR"; ""; ""; "Kraken"; ""; "01.01.2023 10:00:00"].

Definition odd_row : list string :=
  ["Airdrop"; "1"; "BTC"; "-"; ""; ""; ""; "Kraken"; ""; "02.01.2023 10:00:00"].

(** An entry point in the manner of [_consume_cointracking_entry]: the
    state is the list of the rows taken; a row with no type raises
    [KeyError], a row of another type than a trade [UnsupportedCSVEntry]. *)
Definition consume (st : list (gmap string string)) (csv_row : gmap string string)
    : list (gmap string string) * option Cointracking.exception :=
  match csv_row !! "Type" with
  | None => (st, Some (Cointracking.KeyError (Cointracking.StrKey "Type")))
  | Some row_type =>
      if String.eqb row_type "Trade" then ((st ++ [csv_row])%list, None)
      else (st, Some (Cointracking.UnsupportedCSVEntry "Unknown entry type"))
  end.

(** Assets by their symbols, amounts as integers, and an identifier made
    of the counterparty and of the lengths of two names. *)
Definition type_name (ty : Liquity.HistoryEventType) : string :=
  match ty with
  | Liquity.RECEIVE => "receive"
  | Liquity.SPEND => "spend"
  | Liquity.WITHDRAWAL => "withdrawal"
  | Liquity.DEPOSIT => "deposit"
  | Liquity.OtherEventType name => name
  end.

Definition subtype_name (sub : Liquity.HistoryEventSubType) : string :=
  match sub with
  | Liquity.NONE => "none"
  | Liquity.GENERATE_DEBT => "generate debt"
  | Liquity.PAYBACK_DEBT => "payback debt"
  | Liquity.DEPOSIT_ASSET => "deposit asset"
  | Liquity.REMOVE_ASSET => "remove asset"
  | Liquity.OtherEventSubType name => name
  end.

Definition get_tx_event_type_identifier (ty : Liquity.HistoryEventType)
    (sub : Liquity.HistoryEventSubType) (counterparty : string) : string :=
  type_name ty ++ "__" ++ subtype_name sub ++ "__" ++ counterparty.

Definition amount_str (amount : Z) : string := Py.str (Z.to_nat amount).

Definition lusd_received : @Liquity.HistoryBaseEntry string Z unit :=
  {| Liquity.event_type := Liquity.RECEIVE;
     Liquity.event_subtype := Liquity.NONE;
     Liquity.asset := "LUSD";
     Liquity.balance_amount := 2000;
     Liquity.counterparty := None;
     Liquity.notes := None;
     Liquity.other_fields := tt |}.

Definition lusd_generated : @Liquity.HistoryBaseEntry string Z unit :=
  {| Liquity.event_type := Liquity.WITHDRAWAL;
     Liquity.event_subtype := Liquity.GENERATE_DEBT;
     Liquity.asset := "LUSD";
     Liquity.balance_amount := 2000;
     Liquity.counterparty := Some "liquity";
     Liquity.notes := Some "Generate 2000 LUSD from liquity";
     Liquity.other_fields := tt |}.

Definition dai_received : @Liquity.HistoryBaseEntry string Z unit :=
  {| Liquity.event_type := Liquity.RECEIVE;
     Liquity.event_subtype := Liquity.NONE;
     Liquity.asset := "DAI";
     Liquity.balance_amount := 5;
     Liquity.counterparty := None;
     Liquity.notes := None;
     Liquity.other_fields := tt |}.

Definition trove_log : Liquity.EthereumTxReceiptLog :=
  {| Liquity.topics := [Liquity.BALANCE_UPDATE] |}.

Definition other_log : Liquity.EthereumTxReceiptLog :=
  {| Liquity.topics := [[Byte.x00]] |}.

Definition decode_log (tx_log : Liquity.EthereumTxReceiptLog)
    (decoded_events : list (@Liquity.HistoryBaseEntry string Z unit)) :=
  @Liquity._decode_trove_operations string Z unit unit _ "LUSD" "ETH"
    (fun a => a) amount_str tx_log decoded_events.

End Cases.

(** ** The cache keys *)

Section CacheKeyFacts.
Context {CacheType : Type}.
Variable serialize : CacheType -> string.

Lemma append_empty_r (s : string) : s ++ "" = s.
Proof. induction s as [|a s IH]; simpl; [reflexivity | now rewrite IH]. Qed.

Lemma append_assoc (s1 s2 s3 : string) : (s1 ++ s2) ++ s3 = s1 ++ (s2 ++ s3).
Proof. induction s1 as [|a s1 IH]; simpl; [reflexivity | now rewrite IH]. Qed.

Lemma append_cancel_l (p a b : string) : p ++ a = p ++ b -> a = b.
Proof.
  induction p as [|c p IH]; simpl; [trivial|].
  intros Heq. apply IH. now injection Heq.
Qed.

Lemma append_length (s1 s2 : string) :
  String.length (s1 ++ s2) = (String.length s1 + String.length s2)%nat.
Proof. induction s1 as [|a s1 IH]; simpl; [reflexivity | now rewrite IH]. Qed.

(** The loop started from any accumulator. *)
Lemma cache_key_loop (parts : list (key_part CacheType)) (acc : string) :
  fold_left
    (fun cache_key part =>
       match part with
       | Tag c => cache_key ++ serialize c
       | Raw s => cache_key ++ s
       end) parts acc
  = acc ++ compute_cache_key serialize parts.
Proof.
  unfold compute_cache_key. revert acc.
  induction parts as [|part parts IH]; intros acc; simpl.
  - now rewrite append_empty_r.
  - rewrite IH. rewrite (IH (match part with Tag c => _ | Raw s => _ end)).
    destruct part; simpl; now rewrite append_assoc.
Qed.

Lemma compute_cache_key_cons (part : key_part CacheType) parts :
  compute_cache_key serialize (part :: parts) = emitted serialize part ++ compute_cache_key serialize parts.
Proof.
  unfold compute_cache_key at 1. simpl. rewrite cache_key_loop.
  now destruct part.
Qed.

Lemma compute_cache_key_nil : compute_cache_key serialize [] = "".
Proof. reflexivity. Qed.

Lemma compute_cache_key_append (F1 F2 : list (key_part CacheType)) :
  compute_cache_key serialize (F1 ++ F2) = compute_cache_key serialize F1 ++ compute_cache_key serialize F2.
Proof.
  induction F1 as [|part F1 IH].
  - reflexivity.
  - change ((part :: F1) ++ F2)%list with (part :: (F1 ++ F2)%list).
    now rewrite !compute_cache_key_cons, IH, append_assoc.
Qed.

End CacheKeyFacts.

Section CacheKeyClaims.
Context {CacheType : Type}.
Variable serialize : CacheType -> string.

Lemma concat_no_delimiter (x : string) (xs : list string) :
  String.concat "" (x :: xs) = x ++ String.concat "" xs.
Proof.
  destruct xs as [|y ys]; simpl.
  - now rewrite append_empty_r.
  - reflexivity.
Qed.

(** C7. [compute_cache_key] is a function of its argument alone, defined on
    every sequence of parts: its result is the pieces of the parts (the
    serialization of a member of the enumeration, a string as it is) joined
    in the order of the input with no delimiter, and equal inputs give the
    same string. *)
Theorem compute_cache_key_concatenates (F G : list (key_part CacheType)) :
  compute_cache_key serialize F = String.concat "" (List.map (emitted serialize) F)
  /\ (F = G -> compute_cache_key serialize F = compute_cache_key serialize G).
Proof.
  split.
  - induction F as [|part F IH].
    + reflexivity.
    + rewrite compute_cache_key_cons. simpl List.map.
      now rewrite concat_no_delimiter, IH.
  - intros ->. reflexivity.
Qed.

(** C10. [compute_cache_key] maps the concatenation of two sequences of
    parts to the concatenation of their keys, and the empty sequence to the
    empty string. *)
Theorem compute_cache_key_homomorphism :
  (forall F1 F2 : list (key_part CacheType),
      compute_cache_key serialize (F1 ++ F2) = compute_cache_key serialize F1 ++ compute_cache_key serialize F2)
  /\ compute_cache_key serialize [] = "".
Proof.
  split.
  - apply compute_cache_key_append.
  - reflexivity.
Qed.

Lemma startswith_append_same (p a b : string) :
  Py.startswith (p ++ a) (p ++ b) = Py.startswith a b.
Proof.
  induction p as [|c p IH]; simpl.
  - reflexivity.
  - now rewrite Ascii.eqb_refl, IH.
Qed.

Lemma startswith_same_length (a b s t : string) :
  String.length a = String.length b ->
  Py.startswith (b ++ t) (a ++ s) = true -> a = b.
Proof.
  revert b. induction a as [|c a IH]; intros [|d b] Hlen Hpre;
    simpl in *; try discriminate.
  - reflexivity.
  - apply andb_true_iff in Hpre as [Hc Ha].
    apply Ascii.eqb_eq in Hc. subst d. f_equal.
    apply IH; [congruence | assumption].
Qed.

(** C6. The keys of two distinct pool identifiers of the same width differ,
    neither is a prefix of the other, and no key that extends the one is a
    prefix of a key that extends the other. *)
Theorem pool_keys_distinct_and_prefix_free (TAG : CacheType) (P1 P2 : string) :
  P1 <> P2 ->
  String.length P1 = String.length P2 ->
  let key1 := compute_cache_key serialize [Tag TAG; Raw P1] in
  let key2 := compute_cache_key serialize [Tag TAG; Raw P2] in
  key1 <> key2
  /\ Py.startswith key2 key1 = false
  /\ Py.startswith key1 key2 = false
  /\ forall rest1 rest2 : list (key_part CacheType),
      Py.startswith (compute_cache_key serialize ([Tag TAG; Raw P2] ++ rest2))
        (compute_cache_key serialize ([Tag TAG; Raw P1] ++ rest1)) = false.
Proof.
  intros Hne Hlen key1 key2.
  assert (Hext : forall A B s t, A <> B -> String.length A = String.length B ->
            Py.startswith ((serialize TAG ++ B) ++ t) ((serialize TAG ++ A) ++ s) = false).
  { intros A B s t HAB HL. rewrite !append_assoc, startswith_append_same.
    destruct (Py.startswith (B ++ t) (A ++ s)) eqn:E; [|reflexivity].
    exfalso. apply HAB. eapply startswith_same_length; eassumption. }
  assert (Hk : forall P, compute_cache_key serialize [Tag TAG; Raw P] = serialize TAG ++ P).
  { intros P. rewrite !compute_cache_key_cons. simpl. now rewrite append_empty_r. }
  subst key1 key2. rewrite !Hk. repeat split.
  - intros Heq. apply Hne. eapply append_cancel_l, Heq.
  - pose proof (Hext P1 P2 "" "" Hne Hlen) as H.
    now rewrite !append_empty_r in H.
  - pose proof (Hext P2 P1 "" "" (not_eq_sym Hne) (eq_sym Hlen)) as H.
    now rewrite !append_empty_r in H.
  - intros rest1 rest2. rewrite !compute_cache_key_append, !Hk.
    now apply Hext.
Qed.

End CacheKeyClaims.

(** ** [list.sort] *)

Section SortFacts.
Context {A : Type} (key : A -> Z).

#[local] Abbreviation key_le := (Py.key_le key).

Lemma strictly_sorted_is_sorted (l : list A) :
  StronglySorted (fun a b => key a < key b) l -> StronglySorted key_le l.
Proof.
  induction 1 as [|x l _ IH Hx]; constructor; [assumption|].
  eapply Forall_impl; [exact Hx|]. intros y Hy. unfold Py.key_le. simpl in Hy. lia.
Qed.

Lemma sort_insert_perm (x : A) (l : list A) : Py.sort_insert key x l ≡ₚ x :: l.
Proof.
  induction l as [|y l IH]; simpl.
  - reflexivity.
  - destruct (key x <=? key y); [reflexivity|].
    rewrite IH. apply perm_swap.
Qed.

Lemma sorted_perm (l : list A) : Py.sorted key l ≡ₚ l.
Proof.
  induction l as [|x l IH]; simpl.
  - reflexivity.
  - now rewrite sort_insert_perm, IH.
Qed.

Lemma sort_insert_sorted (x : A) (l : list A) :
  StronglySorted key_le l -> StronglySorted key_le (Py.sort_insert key x l).
Proof.
  induction l as [|y l IH]; intros Hl; simpl.
  - repeat constructor.
  - inversion Hl as [|? ? Hl' Hy]; subst.
    destruct (key x <=? key y) eqn:E.
    + apply Z.leb_le in E. constructor; [assumption|].
      constructor; [exact E|].
      eapply Forall_impl; [exact Hy|].
      intros z Hz. unfold Py.key_le in *. simpl in Hz. lia.
    + apply Z.leb_gt in E. constructor; [now apply IH|].
      rewrite sort_insert_perm. constructor; [unfold Py.key_le; lia | assumption].
Qed.

Lemma sorted_StronglySorted (l : list A) : StronglySorted key_le (Py.sorted key l).
Proof.
  induction l as [|x l IH]; simpl.
  - constructor.
  - now apply sort_insert_sorted.
Qed.

(** A list that is already in strictly ascending order of its keys is the
    sorted form of each of its permutations. *)
Lemma sorted_of_permutation (l l' : list A) :
  l ≡ₚ l' ->
  StronglySorted (fun a b => key a < key b) l' ->
  Py.sorted key l = l'.
Proof.
  intros Hperm Hl'.
  apply (StronglySorted_unique_strong (Py.key_le key)).
  - intros x1 x2 H1 H2 H12 H21.
    assert (Hk : key x1 = key x2) by (unfold Py.key_le in *; lia).
    rewrite sorted_perm, Hperm in H1. clear H12 H21 Hperm.
    induction Hl' as [|y l' Hl' IH Hy]; [inversion H1|].
    rewrite Forall_forall in Hy.
    apply elem_of_cons in H1 as [->|H1]; apply elem_of_cons in H2 as [->|H2].
    + reflexivity.
    + specialize (Hy _ H2). lia.
    + specialize (Hy _ H1). lia.
    + now apply IH.
  - apply sorted_StronglySorted.
  - now apply strictly_sorted_is_sorted.
  - now rewrite sorted_perm.
Qed.

(** The first element of the sorted list has the least key. *)
Lemma head_sorted_least (l : list A) (x : A) :
  head (Py.sorted key l) = Some x ->
  In x l /\ forall y, In y l -> key x <= key y.
Proof.
  intros Hhd.
  pose proof (sorted_StronglySorted l) as Hs.
  pose proof (sorted_perm l) as Hp.
  destruct (Py.sorted key l) as [|z zs]; [discriminate|].
  injection Hhd as ->.
  inversion Hs as [|? ? _ Hx]; subst.
  rewrite Forall_forall in Hx.
  split.
  - apply list_elem_of_In. rewrite <- Hp. left.
  - intros y Hy. apply list_elem_of_In in Hy. rewrite <- Hp in Hy.
    apply elem_of_cons in Hy as [->|Hy]; [lia|].
    apply (Hx y Hy).
Qed.

Lemma head_sorted_nonempty (l : list A) :
  l <> [] -> exists x, head (Py.sorted key l) = Some x.
Proof.
  intros Hl. pose proof (sorted_perm l) as Hp.
  destruct (Py.sorted key l) as [|z zs]; [|eauto].
  apply Permutation_nil in Hp. contradiction.
Qed.

End SortFacts.

(** ** The two tables *)

Section TableFacts.

Lemma filter_none {A} (f : A -> bool) (l : list A) :
  (forall x, In x l -> f x = false) -> List.filter f l = [].
Proof.
  induction l as [|x l IH]; intros H; simpl; [reflexivity|].
  rewrite (H x (or_introl eq_refl)). apply IH.
  intros y Hy. apply H. now right.
Qed.

Lemma filter_all {A} (f : A -> bool) (l : list A) :
  (forall x, In x l -> f x = true) -> List.filter f l = l.
Proof.
  induction l as [|x l IH]; intros H; simpl; [reflexivity|].
  rewrite (H x (or_introl eq_refl)). f_equal. apply IH.
  intros y Hy. apply H. now right.
Qed.

Lemma filter_filter {A} (f g : A -> bool) (l : list A) :
  List.filter f (List.filter g l) = List.filter (fun x => g x && f x) l.
Proof.
  induction l as [|x l IH]; simpl; [reflexivity|].
  destruct (g x); simpl; [destruct (f x)|]; now rewrite IH.
Qed.

(** After the upsert of a row in the unique cache, the rows of its key are
    that row alone. *)
Lemma where_key_insert_unique (k v : string) (t : Z) (tbl : list Sql.row) :
  Sql.where_key k (Sql.insert_or_replace Sql.same_key (Sql.Row k v t) tbl)
  = [Sql.Row k v t].
Proof.
  unfold Sql.where_key, Sql.insert_or_replace.
  rewrite List.filter_app, filter_filter. simpl.
  rewrite String.eqb_refl. rewrite filter_none; [reflexivity|].
  intros r _. unfold Sql.same_key; simpl.
  rewrite (String.eqb_sym k). now destruct (Sql.key r =? k)%string.
Qed.

(** After the upsert of a row in the general cache, the rows of its key are
    those that held another value, and then that row. *)
Lemma where_key_insert_general (k v : string) (t : Z) (tbl : list Sql.row) :
  Sql.where_key k (Sql.insert_or_replace Sql.same_key_value (Sql.Row k v t) tbl)
  = (List.filter (fun r => negb (Sql.value r =? v)%string) (Sql.where_key k tbl)
     ++ [Sql.Row k v t])%list.
Proof.
  unfold Sql.where_key, Sql.insert_or_replace.
  rewrite List.filter_app, !filter_filter. simpl.
  rewrite String.eqb_refl. f_equal.
  apply List.filter_ext. intros r. unfold Sql.same_key_value; simpl.
  rewrite (String.eqb_sym k), (String.eqb_sym v).
  destruct (Sql.key r =? k)%string; simpl; [now rewrite andb_true_r | reflexivity].
Qed.

Lemma where_key_absent (k : string) (tbl : list Sql.row) :
  (forall r, In r tbl -> Sql.key r <> k) -> Sql.where_key k tbl = [].
Proof.
  intros H. apply filter_none. intros r Hr. now apply String.eqb_neq, H.
Qed.

End TableFacts.

Section TableClaims.
Context {CacheType : Type}.
Variable serialize : CacheType -> string.

(** C5. After [set_unique] of [v1] and then of [v2] under the same key
    parts, the unique cache holds one row for the key, with the value
    [v2], and [get_unique] returns [v2]. *)
Theorem unique_cache_overwrite (db : Sql.tables)
    (K : list (key_part CacheType)) (v1 v2 : string) (t1 t2 : Z) :
  let db' :=
    globaldb_set_unique_cache_value_at_ts serialize
      (globaldb_set_unique_cache_value_at_ts serialize db K v1 t1) K v2 t2 in
  Sql.where_key (compute_cache_key serialize K) (Sql.unique_cache db')
    = [Sql.Row (compute_cache_key serialize K) v2 t2]
  /\ globaldb_get_unique_cache_value serialize db' K = Some v2.
Proof.
  intros db'. subst db'.
  unfold globaldb_get_unique_cache_value, globaldb_set_unique_cache_value_at_ts.
  simpl. rewrite where_key_insert_unique. split; reflexivity.
Qed.

(** C4. [get_general_oldest_queried_ts] returns zero when the general
    cache has no row of the key, and otherwise the least [last_queried_ts]
    of the rows of the key. In a cache with no row of the key it returns
    zero; after one value is written at the time [t] it returns [t]; after
    another value is then written at a later time [t2] it returns the
    minimum of [t] and [t2]. *)
Theorem oldest_queried_ts_is_minimum :
  (forall (db : Sql.tables) (K : list (key_part CacheType)),
      let rows :=
        Sql.where_key (compute_cache_key serialize K) (Sql.general_cache db) in
      let ts := globaldb_get_general_cache_last_queried_ts_by_key serialize db K in
      (rows = [] -> ts = 0)
      /\ (rows <> [] ->
          (exists r, In r rows /\ Sql.last_queried_ts r = ts)
          /\ forall r, In r rows -> ts <= Sql.last_queried_ts r))
  /\ (forall (db : Sql.tables) (K : list (key_part CacheType))
        (v1 v2 : string) (t t2 : Z),
        (forall r, In r (Sql.general_cache db) ->
                   Sql.key r <> compute_cache_key serialize K) ->
        let db1 := globaldb_set_general_cache_values_at_ts serialize db K [v1] t in
        let db2 := globaldb_set_general_cache_values_at_ts serialize db1 K [v2] t2 in
        globaldb_get_general_cache_last_queried_ts_by_key serialize db K = 0
        /\ globaldb_get_general_cache_last_queried_ts_by_key serialize db1 K = t
        /\ (v1 <> v2 -> t < t2 ->
            globaldb_get_general_cache_last_queried_ts_by_key serialize db2 K
            = Z.min t t2)).
Proof.
  split.
  - intros db K rows ts. subst ts.
    unfold globaldb_get_general_cache_last_queried_ts_by_key,
      Sql.order_by_last_queried_ts, Sql.fetchone.
    fold rows. split.
    + intros ->. reflexivity.
    + intros Hne.
      destruct (head_sorted_nonempty Sql.last_queried_ts rows Hne) as [x Hx].
      rewrite Hx.
      destruct (head_sorted_least Sql.last_queried_ts rows x Hx) as [Hin Hle].
      split; [now exists x | exact Hle].
  - intros db K v1 v2 t t2 Habs db1 db2. subst db1 db2.
    unfold globaldb_get_general_cache_last_queried_ts_by_key,
      globaldb_set_general_cache_values_at_ts, Sql.executemany.
    simpl. rewrite !where_key_insert_general, (where_key_absent _ _ Habs).
    simpl. repeat split.
    intros Hv Ht. rewrite (proj2 (String.eqb_neq v1 v2) Hv). simpl.
    destruct (t <=? t2) eqn:E; simpl; [lia | apply Z.leb_gt in E; lia].
Qed.

Lemma like_percent (s : string) : Sql.like "%" s = true.
Proof. induction s as [|c s IH]; simpl; [reflexivity | now destruct s]. Qed.

(** A pattern made of a string with no wildcard and then [%] matches the
    strings that start with that string, the case of the letters of the
    ASCII alphabet left aside. *)
Lemma like_prefix (p s : string) :
  Sql.wildcard_free p = true ->
  Sql.like (p ++ "%") s = Py.startswith (Sql.lower_string s) (Sql.lower_string p).
Proof.
  revert s. induction p as [|c p IH]; intros s Hp.
  - simpl String.append. rewrite like_percent. now destruct s.
  - simpl in Hp. apply andb_true_iff in Hp as [Hc Hp].
    unfold Sql.wildcard in Hc. apply negb_true_iff, orb_false_iff in Hc as [Hc1 Hc2].
    simpl. rewrite Hc1, Hc2. destruct s as [|d s]; [reflexivity|].
    simpl. now rewrite IH.
Qed.

Lemma wildcard_free_append (a b : string) :
  Sql.wildcard_free (a ++ b) = Sql.wildcard_free a && Sql.wildcard_free b.
Proof.
  induction a as [|c a IH]; simpl; [reflexivity|].
  now rewrite IH, andb_assoc.
Qed.

Lemma wildcard_free_cache_key (parts : list (key_part CacheType)) :
  List.Forall (fun part => Sql.wildcard_free (emitted serialize part) = true) parts ->
  Sql.wildcard_free (compute_cache_key serialize parts) = true.
Proof.
  induction 1 as [|part parts Hpart _ IH]; [reflexivity|].
  now rewrite compute_cache_key_cons, wildcard_free_append, Hpart, IH.
Qed.

(** What [get_general_like] returns when no piece of the key parts holds
    a wildcard: the values of the rows whose key starts with the computed
    key, the case of the letters of the ASCII alphabet left aside. *)
Lemma general_cache_like_selects (db : Sql.tables)
    (key_parts : list (key_part CacheType)) :
  List.Forall (fun part => Sql.wildcard_free (emitted serialize part) = true)
    key_parts ->
  globaldb_get_general_cache_like serialize db key_parts
  = List.map Sql.value
      (List.filter
         (fun r => Py.startswith (Sql.lower_string (Sql.key r))
                     (Sql.lower_string (compute_cache_key serialize key_parts)))
         (Sql.general_cache db)).
Proof.
  intros Hfree. unfold globaldb_get_general_cache_like, Sql.where_key_like.
  f_equal. apply List.filter_ext. intros r.
  apply like_prefix, wildcard_free_cache_key, Hfree.
Qed.

End TableClaims.

(** ** [int] and [str] *)

Section IntFacts.

Lemma digit_is_plain (c : ascii) (d : Z) :
  Py.digit_value c = Some d ->
  Py.isspace c = false /\ Ascii.eqb c "+" = false /\ Ascii.eqb c "-" = false.
Proof.
  destruct c as [[|] [|] [|] [|] [|] [|] [|] [|]]; vm_compute; intros H;
    solve [discriminate H | repeat split].
Qed.

Lemma int_digits_at_digit (b : bool) (acc : Z) (c : ascii) (l : list ascii) (d : Z) :
  Py.digit_value c = Some d ->
  Py.int_digits b acc (c :: l) = Py.int_digits true acc (c :: l).
Proof. intros H. simpl. now rewrite H. Qed.

Lemma uint_chars_digits (u : Decimal.uint) :
  List.Forall (fun c => exists d, Py.digit_value c = Some d)
    (list_ascii_of_string (NilEmpty.string_of_uint u)).
Proof.
  induction u; simpl; constructor; try assumption; eexists; reflexivity.
Qed.

Lemma int_digits_uint (u : Decimal.uint) (acc : nat) :
  Py.int_digits true (Z.of_nat acc)
    (list_ascii_of_string (NilEmpty.string_of_uint u))
  = Some (Z.of_nat (Nat.of_uint_acc u acc)).
Proof.
  revert acc. induction u; intros acc; [reflexivity | ..];
    simpl Nat.of_uint_acc; rewrite <- IHu; simpl; f_equal;
    match goal with
    | |- context [nat_of_ascii ?c] =>
        let v := eval vm_compute in (nat_of_ascii c) in
        change (nat_of_ascii c) with v
    end;
    rewrite Nat.tail_mul_spec; lia.
Qed.

Lemma lstrip_plain (l : list ascii) :
  List.Forall (fun c => Py.isspace c = false) l -> Py.lstrip l = l.
Proof. destruct 1 as [|c l Hc _]; simpl; [reflexivity | now rewrite Hc]. Qed.

Lemma strip_plain (l : list ascii) :
  List.Forall (fun c => Py.isspace c = false) l -> Py.strip l = l.
Proof.
  intros H. unfold Py.strip. rewrite (lstrip_plain l H).
  rewrite lstrip_plain; [apply rev_involutive|].
  apply List.Forall_forall. intros c Hc. rewrite List.Forall_forall in H.
  apply H. now apply List.in_rev.
Qed.

Lemma to_uint_not_nil (n : nat) : Nat.to_uint n <> Decimal.Nil.
Proof.
  intros H. pose proof (Unsigned.of_to n) as Hn. rewrite H in Hn.
  simpl in Hn. subst n. discriminate H.
Qed.

(** [int(str(n))] is [n]. *)
Lemma int_literal_str (n : nat) : Py.int_literal (Py.str n) = Some (Z.of_nat n).
Proof.
  unfold Py.int_literal, Py.str.
  pose proof (uint_chars_digits (Nat.to_uint n)) as Hd.
  pose proof (int_digits_uint (Nat.to_uint n) 0) as Hv.
  pose proof (to_uint_not_nil n) as Hnil.
  rewrite strip_plain.
  2:{ eapply Forall_impl; [exact Hd|]. intros c [d Hc].
      apply (digit_is_plain c d Hc). }
  destruct (list_ascii_of_string (NilEmpty.string_of_uint (Nat.to_uint n)))
    as [|c l] eqn:E.
  - destruct (Nat.to_uint n); simpl in E; congruence.
  - inversion Hd as [|? ? [d Hc] _]; subst.
    destruct (digit_is_plain c d Hc) as (_ & -> & ->).
    rewrite (int_digits_at_digit false 0 c l d Hc).
    change 0 with (Z.of_nat 0). rewrite Hv.
    change (Nat.of_uint_acc (Nat.to_uint n) 0) with (Nat.of_uint (Nat.to_uint n)).
    now rewrite Unsigned.of_to.
Qed.

Lemma int_str (n : nat) : Py.int (Py.str n) = Py.Ok (Z.of_nat n).
Proof. unfold Py.int. now rewrite int_literal_str. Qed.

Lemma str_injective (n m : nat) : Py.str n = Py.str m -> n = m.
Proof.
  intros H. apply Nat2Z.inj.
  pose proof (int_literal_str n) as Hn. rewrite H, int_literal_str in Hn.
  congruence.
Qed.

Lemma slice_from_length_append (p s : string) :
  Py.slice_from (String.length p) (p ++ s) = s.
Proof. induction p as [|c p IH]; simpl; [reflexivity | exact IH]. Qed.

Lemma slice_from_short (n : nat) (s : string) :
  (String.length s <= n)%nat -> Py.slice_from n s = "".
Proof.
  revert s. induction n as [|n IH]; intros [|c s] H; simpl in *;
    try reflexivity; [lia | apply IH; lia].
Qed.

End IntFacts.

(** ** The tokens of a curve pool *)

Section PoolTokenFacts.
Context {CacheType : Type}.
Variable serialize : CacheType -> string.
Variable CURVE_POOL_TOKENS : CacheType.
Variable ZERO_ADDRESS : string.

#[local] Abbreviation pool_key X :=
  (compute_cache_key serialize [Tag CURVE_POOL_TOKENS; Raw X]).
#[local] Abbreviation token_row timestamp_of X :=
  (fun e : nat * string =>
     Sql.Row (pool_key X ++ Py.str (fst e)) (snd e) (timestamp_of (fst e))).
#[local] Abbreviation found_token :=
  (fun e : nat * string => (Z.of_nat (fst e), snd e)).

Lemma like_percent_unfold (q s : string) :
  Sql.like (String "%" q) s
  = Sql.like q s
    || match s with
       | EmptyString => false
       | String _ s' => Sql.like (String "%" q) s'
       end.
Proof. destruct s; reflexivity. Qed.

(** A pattern followed by [%] matches every string that it begins,
    whatever wildcards it holds. *)
Lemma like_own_prefix (p s : string) : Sql.like (p ++ "%") (p ++ s) = true.
Proof.
  induction p as [|c p IH].
  - apply like_percent.
  - change (String c p ++ "%") with (String c (p ++ "%")).
    change (String c p ++ s) with (String c (p ++ s)).
    destruct (Ascii.eqb c "%") eqn:E.
    + apply Ascii.eqb_eq in E. subst c.
      rewrite like_percent_unfold. apply orb_true_iff. right.
      rewrite like_percent_unfold, IH. reflexivity.
    + simpl. rewrite E, Ascii.eqb_refl, orb_true_r. exact IH.
Qed.

Lemma where_key_like_insert (conflict : Sql.row -> Sql.row -> bool)
    (pat : string) (r : Sql.row) (tbl : list Sql.row) :
  Sql.like pat (Sql.key r) = true ->
  Sql.where_key_like pat (Sql.insert_or_replace conflict r tbl)
  = (List.filter (fun r' => negb (conflict r r')) (Sql.where_key_like pat tbl)
     ++ [r])%list.
Proof.
  intros Hr. unfold Sql.where_key_like, Sql.insert_or_replace.
  rewrite List.filter_app, !filter_filter. simpl. rewrite Hr. f_equal.
  apply List.filter_ext. intros r'. apply andb_comm.
Qed.

Lemma token_key (X s : string) :
  compute_cache_key serialize [Tag CURVE_POOL_TOKENS; Raw X; Raw s] = pool_key X ++ s.
Proof.
  change [Tag CURVE_POOL_TOKENS; Raw X; Raw s]
    with ([Tag CURVE_POOL_TOKENS; Raw X] ++ [Raw s])%list.
  rewrite compute_cache_key_append. f_equal.
Qed.

Lemma pool_key_length (X : string) :
  String.length X = String.length ZERO_ADDRESS ->
  String.length (pool_key X) = BASE_POOL_TOKENS_KEY_LENGTH serialize CURVE_POOL_TOKENS ZERO_ADDRESS.
Proof.
  intros H. unfold BASE_POOL_TOKENS_KEY_LENGTH.
  rewrite !compute_cache_key_cons, !append_length. simpl.
  now rewrite H.
Qed.

(** The rows that the pattern of the pool selects, after the tokens [ws]
    are written over a store where it selects the rows of [done]. *)
Lemma rows_after_writes (timestamp_of : nat -> Z) (X : string)
    (ws done : list (nat * string)) (db : Sql.tables) :
  NoDup (List.map fst (done ++ ws)) ->
  Sql.where_key_like (pool_key X ++ "%") (Sql.general_cache db)
    = List.map (token_row timestamp_of X) done ->
  Sql.where_key_like (pool_key X ++ "%")
    (Sql.general_cache
       (write_pool_tokens serialize CURVE_POOL_TOKENS timestamp_of X ws db))
  = List.map (token_row timestamp_of X) (done ++ ws).
Proof.
  revert done db. induction ws as [|w ws IH]; intros done db Hnd Hdb.
  - now rewrite app_nil_r.
  - change (done ++ w :: ws)%list with (done ++ [w] ++ ws)%list in *.
    rewrite app_assoc in *. simpl.
    apply IH; [exact Hnd|].
    unfold write_pool_token, globaldb_set_general_cache_values_at_ts. simpl.
    rewrite token_key, where_key_like_insert by apply like_own_prefix.
    rewrite Hdb, List.map_app. f_equal.
    apply filter_all. intros r Hr.
    apply List.in_map_iff in Hr as (e & <- & He).
    unfold Sql.same_key_value. simpl.
    destruct (String.eqb_spec (pool_key X ++ Py.str (fst w))
                (pool_key X ++ Py.str (fst e))) as [Heq|]; [|reflexivity].
    exfalso. apply append_cancel_l, str_injective in Heq.
    rewrite List.map_app, List.map_app in Hnd.
    apply NoDup_app in Hnd as [Hnd _].
    apply NoDup_app in Hnd as (_ & Hdis & _).
    apply (Hdis (fst e)).
    + apply list_elem_of_In, List.in_map, He.
    + rewrite <- Heq. simpl. left.
Qed.

Lemma collect_written_tokens (X : string) (ws : list (nat * string))
    (found : list (Z * string)) :
  String.length X = String.length ZERO_ADDRESS ->
  collect_found_tokens serialize CURVE_POOL_TOKENS ZERO_ADDRESS
    (List.map (fun e : nat * string => (pool_key X ++ Py.str (fst e), snd e)) ws)
    found
  = Py.Ok (found ++ List.map found_token ws)%list.
Proof.
  intros HX. revert found. induction ws as [|w ws IH]; intros found; simpl.
  - now rewrite app_nil_r.
  - rewrite <- (pool_key_length X HX), slice_from_length_append, int_str.
    simpl. rewrite IH, <- app_assoc. reflexivity.
Qed.

(** The loop raises as soon as one key has no integer after the prefix. *)
Lemma collect_raises (tokens_data : list (string * string)) (key address : string)
    (found : list (Z * string)) :
  In (key, address) tokens_data ->
  Py.int_literal
    (Py.slice_from
       (BASE_POOL_TOKENS_KEY_LENGTH serialize CURVE_POOL_TOKENS ZERO_ADDRESS) key)
    = None ->
  collect_found_tokens serialize CURVE_POOL_TOKENS ZERO_ADDRESS tokens_data found
    = Py.Raise Py.ValueError.
Proof.
  intros Hin Hbad. revert found.
  induction tokens_data as [|[k a] rest IH]; intros found; [destruct Hin|].
  simpl. unfold Py.int.
  destruct (Py.int_literal (Py.slice_from _ k)) as [z|] eqn:Ek; simpl.
  - destruct Hin as [Heq|Hin]; [injection Heq as -> ->; congruence|].
    now apply IH.
  - reflexivity.
Qed.

Lemma strictly_sorted_NoDup (l : list (nat * string)) :
  StronglySorted (fun a b => (fst a < fst b)%nat) l -> NoDup (List.map fst l).
Proof.
  induction 1 as [|e l _ IH He]; simpl; constructor; [|exact IH].
  intros Hin. apply list_elem_of_In, List.in_map_iff in Hin as (e' & Heq & Hin).
  rewrite List.Forall_forall in He. specialize (He e' Hin). simpl in He. lia.
Qed.

Lemma strictly_sorted_found (l : list (nat * string)) :
  StronglySorted (fun a b => (fst a < fst b)%nat) l ->
  StronglySorted (fun a b : Z * string => fst a < fst b) (List.map found_token l).
Proof.
  induction 1 as [|e l _ IH He]; simpl; constructor; [exact IH|].
  apply List.Forall_map. eapply List.Forall_impl; [|exact He].
  intros e' H. simpl in *. lia.
Qed.

Lemma enumerate_strictly_sorted (start : nat) (tokens : list string) :
  StronglySorted (fun a b : nat * string => (fst a < fst b)%nat)
    (List.combine (List.seq start (List.length tokens)) tokens).
Proof.
  revert start. induction tokens as [|t tokens IH]; intros start; simpl.
  - constructor.
  - constructor; [apply IH|].
    apply List.Forall_forall. intros [i a] Hin.
    apply List.in_combine_l, List.in_seq in Hin. simpl. lia.
Qed.

Lemma enumerate_tokens (start : nat) (tokens : list string) :
  List.map snd (List.combine (List.seq start (List.length tokens)) tokens) = tokens.
Proof.
  revert start. induction tokens as [|t tokens IH]; intros start; simpl.
  - reflexivity.
  - now rewrite IH.
Qed.

(** The reader, on a store where the pattern of the pool selects the rows
    of the tokens [written]. *)
Lemma read_written_tokens (timestamp_of : nat -> Z) (db : Sql.tables) (X : string)
    (written ordered : list (nat * string)) :
  String.length X = String.length ZERO_ADDRESS ->
  Sql.where_key_like (pool_key X ++ "%") (Sql.general_cache db)
    = List.map (token_row timestamp_of X) written ->
  written ≡ₚ ordered ->
  StronglySorted (fun a b => (fst a < fst b)%nat) ordered ->
  read_curve_pool_tokens serialize CURVE_POOL_TOKENS ZERO_ADDRESS db X
    = Py.Ok (List.map snd ordered).
Proof.
  intros HX Hrows Hperm Hsorted.
  unfold read_curve_pool_tokens, globaldb_get_general_cache_keys_and_values_like.
  rewrite Hrows, List.map_map. simpl.
  rewrite (collect_written_tokens X written [] HX). simpl.
  rewrite (sorted_of_permutation fst _ (List.map found_token ordered)).
  - now rewrite List.map_map.
  - now apply Permutation_map.
  - now apply strictly_sorted_found.
Qed.

End PoolTokenFacts.

Section PoolTokenClaims.
Context {CacheType : Type}.
Variable serialize : CacheType -> string.
Variable CURVE_POOL_TOKENS : CacheType.
Variable ZERO_ADDRESS : string.

(** C2. On a store that holds nothing for the pool [X], let the tokens
    [written] be written, each under the key made of the tag of the pool
    tokens, the address [X] and its index, in the order of the list
    [written]. Whatever that order, [read_curve_pool_tokens] returns the
    addresses in the ascending order of their indices: those of [ordered],
    the arrangement of [written] by strictly ascending index. *)
Theorem read_curve_pool_tokens_in_index_order (timestamp_of : nat -> Z)
    (db : Sql.tables) (X : string) (written ordered : list (nat * string)) :
  String.length X = String.length ZERO_ADDRESS ->
  Sql.where_key_like
    (compute_cache_key serialize [Tag CURVE_POOL_TOKENS; Raw X] ++ "%")
    (Sql.general_cache db) = [] ->
  written ≡ₚ ordered ->
  StronglySorted (fun a b => (fst a < fst b)%nat) ordered ->
  read_curve_pool_tokens serialize CURVE_POOL_TOKENS ZERO_ADDRESS
    (write_pool_tokens serialize CURVE_POOL_TOKENS timestamp_of X written db) X
  = Py.Ok (List.map snd ordered).
Proof.
  intros HX Hdb Hperm Hsorted.
  apply (read_written_tokens serialize CURVE_POOL_TOKENS ZERO_ADDRESS
           timestamp_of _ X written ordered HX); [|exact Hperm|exact Hsorted].
  apply (rows_after_writes serialize CURVE_POOL_TOKENS timestamp_of X written []).
  - simpl. rewrite Hperm. now apply strictly_sorted_NoDup.
  - exact Hdb.
Qed.

(** The tokens [A, B, C, ...] of a pool, written with the indices
    0, 1, 2, ... in any order, are read back as [A, B, C, ...]. *)
Corollary read_curve_pool_tokens_enumerated (timestamp_of : nat -> Z)
    (db : Sql.tables) (X : string) (tokens : list string)
    (written : list (nat * string)) :
  String.length X = String.length ZERO_ADDRESS ->
  Sql.where_key_like
    (compute_cache_key serialize [Tag CURVE_POOL_TOKENS; Raw X] ++ "%")
    (Sql.general_cache db) = [] ->
  written ≡ₚ List.combine (List.seq 0 (List.length tokens)) tokens ->
  read_curve_pool_tokens serialize CURVE_POOL_TOKENS ZERO_ADDRESS
    (write_pool_tokens serialize CURVE_POOL_TOKENS timestamp_of X written db) X
  = Py.Ok tokens.
Proof.
  intros HX Hdb Hperm.
  transitivity
    (Py.Ok (List.map snd (List.combine (List.seq 0 (List.length tokens)) tokens)));
    [|now rewrite enumerate_tokens].
  apply (read_written_tokens serialize CURVE_POOL_TOKENS ZERO_ADDRESS
           timestamp_of _ X written _ HX);
    [|exact Hperm|apply enumerate_strictly_sorted].
  apply (rows_after_writes serialize CURVE_POOL_TOKENS timestamp_of X written []).
  - simpl. rewrite Hperm. apply strictly_sorted_NoDup, enumerate_strictly_sorted.
  - exact Hdb.
Qed.

(** C9. When a row that the pattern of the pool selects has a key with
    nothing after the prefix of fixed length, or with something there that
    [int] does not accept, [read_curve_pool_tokens] raises [ValueError]: it
    returns no list. *)
Theorem read_curve_pool_tokens_fails_loudly (db : Sql.tables)
    (pool_address : string) (r : Sql.row) :
  In r (Sql.general_cache db) ->
  Sql.like
    (compute_cache_key serialize [Tag CURVE_POOL_TOKENS; Raw pool_address] ++ "%")
    (Sql.key r) = true ->
  (String.length (Sql.key r)
     <= BASE_POOL_TOKENS_KEY_LENGTH serialize CURVE_POOL_TOKENS ZERO_ADDRESS)%nat
  \/ Py.int_literal
       (Py.slice_from
          (BASE_POOL_TOKENS_KEY_LENGTH serialize CURVE_POOL_TOKENS ZERO_ADDRESS)
          (Sql.key r)) = None ->
  read_curve_pool_tokens serialize CURVE_POOL_TOKENS ZERO_ADDRESS db pool_address
  = Py.Raise Py.ValueError.
Proof.
  intros Hin Hlike Hbad.
  assert (Hnone : Py.int_literal
            (Py.slice_from
               (BASE_POOL_TOKENS_KEY_LENGTH serialize CURVE_POOL_TOKENS ZERO_ADDRESS)
               (Sql.key r)) = None).
  { destruct Hbad as [Hshort|Hbad]; [|exact Hbad].
    now rewrite (slice_from_short _ _ Hshort). }
  unfold read_curve_pool_tokens, globaldb_get_general_cache_keys_and_values_like.
  rewrite (collect_raises serialize CURVE_POOL_TOKENS ZERO_ADDRESS _
             (Sql.key r) (Sql.value r) [] ); [reflexivity| |exact Hnone].
  apply List.in_map_iff. exists r. split; [reflexivity|].
  apply List.filter_In. split; assumption.
Qed.

End PoolTokenClaims.

(** ** The rules manager *)

Section RulesClaims.
Context {EventType EventSubType BaseEventSettings EventsAccountantCallback : Type}.
Variable get_event_type_identifier :
  EventType -> EventSubType -> option string -> Z.

#[local] Abbreviation manager :=
  (@AccountingRulesManager BaseEventSettings EventsAccountantCallback).
#[local] Abbreviation event := (history_event EventType EventSubType).

(** Both dictionaries are empty after [clean_rules], and stay so while
    [reset] is not called. *)
Lemma run_calls_without_reset
    (calls : list (@call EventType EventSubType BaseEventSettings
                     EventsAccountantCallback))
    (self : manager) :
  forallb (fun c => negb (is_reset c)) calls = true ->
  self = Manager ∅ ∅ ->
  run_calls get_event_type_identifier calls self = Manager ∅ ∅.
Proof.
  revert self. induction calls as [|c calls IH]; intros self Hcalls ->.
  - reflexivity.
  - simpl in Hcalls. apply andb_true_iff in Hcalls as [Hc Hcalls].
    unfold run_calls. simpl. apply IH; [exact Hcalls|].
    destruct c; [reflexivity | reflexivity | discriminate Hc].
Qed.

Lemma get_event_settings_empty (e : event) :
  get_event_settings get_event_type_identifier
    (Manager (∅ : gmap Z BaseEventSettings) (∅ : gmap Z EventsAccountantCallback)) e
  = (None, None).
Proof.
  unfold get_event_settings, get_event_settings_reads. simpl.
  rewrite !lookup_empty.
  destruct (negb (isinstance_EvmEvent e) || bool_decide (is_Some None)); reflexivity.
Qed.

(** C8. After [clean_rules], and until [reset] is called,
    [get_event_settings] returns [(None, None)] for every event; and
    [clean_rules] on a manager that holds nothing changes nothing. *)
Theorem clean_rules_until_reset (self : manager)
    (calls : list (@call EventType EventSubType BaseEventSettings
                     EventsAccountantCallback))
    (e : event) :
  (forallb (fun c => negb (is_reset c)) calls = true ->
   get_event_settings get_event_type_identifier
     (run_calls get_event_type_identifier calls (clean_rules self)) e
   = (None, None))
  /\ clean_rules (clean_rules self) = clean_rules self
  /\ clean_rules (init : manager) = init.
Proof.
  split; [|split; reflexivity].
  intros Hcalls.
  rewrite (run_calls_without_reset calls (clean_rules self) Hcalls eq_refl).
  apply get_event_settings_empty.
Qed.

(** C1, as the program has it. When a rule is registered under the
    identifier of a type and a subtype with no counterparty, and none
    under the identifier with the counterparty of an [EvmEvent] of that
    type and subtype, [get_event_settings] misses in the first dictionary
    read, reads again under the identifier without the counterparty and
    returns that rule, with the callback of that identifier. For an
    event that is not an [EvmEvent] and has no rule under its identifier,
    it returns no rule, with the callback registered under that same
    identifier if there is one, and reads under no other identifier. *)
Theorem get_event_settings_two_tiers (self : manager)
    (ty : EventType) (sub : EventSubType) :
  (forall (counterparty : string) (rule : BaseEventSettings),
      event_settings self !! get_event_type_identifier ty sub None = Some rule ->
      event_settings self !! get_event_type_identifier ty sub (Some counterparty)
        = None ->
      get_event_settings_reads get_event_type_identifier self
        (EvmEvent ty sub (Some counterparty))
      = ((Some rule,
          event_callbacks self !! get_event_type_identifier ty sub None),
         [ReadSettings (get_event_type_identifier ty sub (Some counterparty));
          ReadSettings (get_event_type_identifier ty sub None);
          ReadCallbacks (get_event_type_identifier ty sub None)]))
  /\ (event_settings self
        !! get_type_identifier get_event_type_identifier (HistoryBaseEntry ty sub) true
        = None ->
      get_event_settings_reads get_event_type_identifier self (HistoryBaseEntry ty sub)
      = ((None,
          event_callbacks self
            !! get_type_identifier get_event_type_identifier
                 (HistoryBaseEntry ty sub) true),
         [ReadSettings
            (get_type_identifier get_event_type_identifier (HistoryBaseEntry ty sub) true);
          ReadCallbacks
            (get_type_identifier get_event_type_identifier (HistoryBaseEntry ty sub) true)])).
Proof.
  split.
  - intros counterparty rule Hrule Hnone.
    unfold get_event_settings_reads. simpl. rewrite Hnone, Hrule. reflexivity.
  - intros Hnone. unfold get_event_settings_reads. simpl in *.
    rewrite Hnone. reflexivity.
Qed.

End RulesClaims.

(** ** The statements, run on the instance *)

Section Runs.
Import Sample.

Lemma compute_cache_key_concatenates_run :
  compute_cache_key serialize [Tag CURVE_POOL_TOKENS; Raw pool_a; Raw "0"]
  = compute_cache_key serialize [Tag CURVE_POOL_TOKENS; Raw pool_a; Raw "0"].
Proof.
  exact (proj2 (compute_cache_key_concatenates serialize
                  [Tag CURVE_POOL_TOKENS; Raw pool_a; Raw "0"]
                  [Tag CURVE_POOL_TOKENS; Raw pool_a; Raw "0"]) eq_refl).
Defined.

Lemma pool_keys_distinct_and_prefix_free_run :
  compute_cache_key serialize [Tag CURVE_POOL_TOKENS; Raw pool_a]
  <> compute_cache_key serialize [Tag CURVE_POOL_TOKENS; Raw pool_b].
Proof.
  refine (proj1 (pool_keys_distinct_and_prefix_free serialize CURVE_POOL_TOKENS
                   pool_a pool_b _ _)).
  - discriminate.
  - reflexivity.
Defined.

Lemma unique_cache_overwrite_run :
  globaldb_get_unique_cache_value serialize
    (globaldb_set_unique_cache_value_at_ts serialize
       (globaldb_set_unique_cache_value_at_ts serialize empty_db
          [Tag CURVE_LP_TOKENS; Raw pool_a] dai 1)
       [Tag CURVE_LP_TOKENS; Raw pool_a] usdc 2)
    [Tag CURVE_LP_TOKENS; Raw pool_a]
  = Some usdc.
Proof.
  exact (proj2 (unique_cache_overwrite serialize empty_db
                  [Tag CURVE_LP_TOKENS; Raw pool_a] dai usdc 1 2)).
Defined.

Lemma oldest_queried_ts_is_minimum_run :
  globaldb_get_general_cache_last_queried_ts_by_key serialize
    (globaldb_set_general_cache_values_at_ts serialize
       (globaldb_set_general_cache_values_at_ts serialize empty_db
          [Tag CURVE_LP_TOKENS; Raw pool_a] [dai] 10)
       [Tag CURVE_LP_TOKENS; Raw pool_a] [usdc] 20)
    [Tag CURVE_LP_TOKENS; Raw pool_a]
  = Z.min 10 20.
Proof.
  refine (proj2 (proj2 (proj2 (oldest_queried_ts_is_minimum serialize) empty_db
                          [Tag CURVE_LP_TOKENS; Raw pool_a] dai usdc 10 20 _)) _ _).
  - intros r [].
  - discriminate.
  - reflexivity.
Defined.

(** C3. The prefix lookup does not keep to the keys that start with the
    computed key: for the key parts [VELO] and [0xab], which hold no
    wildcard, it returns the value stored under the key [velo0xAB0], that
    does not start with [VELO0xab], beside the value stored under
    [VELO0xab1]. *)
Lemma general_cache_like_folds_case :
  List.Forall
    (fun part => Sql.wildcard_free (emitted serialize part) = true)
    [Raw "VELO"; Raw "0xab"]
  /\ compute_cache_key serialize [Raw "VELO"; Raw "0xab"] = "VELO0xab"
  /\ Py.startswith "velo0xAB0" "VELO0xab" = false
  /\ globaldb_get_general_cache_like serialize db_with_case_variant
       [Raw "VELO"; Raw "0xab"]
     ≡ₚ [dai; usdc].
Proof.
  split; [repeat constructor|].
  split; [reflexivity|]. split; [reflexivity|].
  vm_compute. reflexivity.
Qed.

Lemma read_curve_pool_tokens_in_index_order_run :
  read_curve_pool_tokens serialize CURVE_POOL_TOKENS ZERO_ADDRESS
    (write_pool_tokens serialize CURVE_POOL_TOKENS (fun i => 1700000000 + Z.of_nat i)
       pool_a [(2%nat, usdt); (0%nat, dai); (1%nat, usdc)] empty_db)
    pool_a
  = Py.Ok [dai; usdc; usdt].
Proof.
  refine (read_curve_pool_tokens_in_index_order serialize CURVE_POOL_TOKENS
            ZERO_ADDRESS _ empty_db pool_a
            [(2%nat, usdt); (0%nat, dai); (1%nat, usdc)]
            [(0%nat, dai); (1%nat, usdc); (2%nat, usdt)] _ _ _ _).
  - reflexivity.
  - reflexivity.
  - eapply perm_trans; [apply perm_swap|]. apply perm_skip, perm_swap.
  - repeat constructor; simpl; lia.
Defined.

Lemma read_curve_pool_tokens_fails_loudly_run :
  read_curve_pool_tokens serialize CURVE_POOL_TOKENS ZERO_ADDRESS db_with_bad_key pool_a
  = Py.Raise Py.ValueError.
Proof.
  refine (read_curve_pool_tokens_fails_loudly serialize CURVE_POOL_TOKENS
            ZERO_ADDRESS db_with_bad_key pool_a
            (Sql.Row
               (compute_cache_key serialize
                  [Tag CURVE_POOL_TOKENS; Raw pool_a; Raw "one"])
               dai 1700000000) _ _ _).
  - left. reflexivity.
  - reflexivity.
  - right. reflexivity.
Defined.

Lemma clean_rules_until_reset_run :
  get_event_settings get_event_type_identifier
    (run_calls get_event_type_identifier
       [CallGetEventSettings (HistoryBaseEntry SPEND NONE); CallCleanRules]
       (clean_rules manager_with_generic_rule))
    (EvmEvent SPEND NONE (Some "foo"))
  = (None, None).
Proof.
  exact (proj1 (clean_rules_until_reset get_event_type_identifier
                  manager_with_generic_rule
                  [CallGetEventSettings (HistoryBaseEntry SPEND NONE); CallCleanRules]
                  (EvmEvent SPEND NONE (Some "foo"))) eq_refl).
Defined.

Lemma get_event_settings_two_tiers_run :
  get_event_settings_reads get_event_type_identifier manager_with_generic_rule
    (EvmEvent SPEND NONE (Some "foo"))
  = ((Some "rule for spend", Some "callback for spend"),
     [ReadSettings 311; ReadSettings 11; ReadCallbacks 11]).
Proof.
  exact (proj1 (get_event_settings_two_tiers get_event_type_identifier
                  manager_with_generic_rule SPEND NONE)
           "foo" "rule for spend" eq_refl eq_refl).
Defined.

(** C1, as it is stated, fails: an event that is not an [EvmEvent], with no
    rule under its identifier, gets the callback registered under that
    identifier, not [(None, None)]. *)
Lemma get_event_settings_callback_without_rule :
  isinstance_EvmEvent (HistoryBaseEntry SPEND NONE) = false
  /\ event_settings manager_with_callback_only
       !! get_type_identifier get_event_type_identifier (HistoryBaseEntry SPEND NONE) true
     = None
  /\ get_event_settings get_event_type_identifier manager_with_callback_only
       (HistoryBaseEntry SPEND NONE)
     = (None, Some "callback for spend")
  /\ get_event_settings get_event_type_identifier manager_with_callback_only
       (HistoryBaseEntry SPEND NONE)
     <> (None, None).
Proof.
  repeat split. discriminate.
Qed.

End Runs.

(** ** More on the two tables *)

Section TableMoreFacts.

Lemma where_key_other_insert (conflict : Sql.row -> Sql.row -> bool)
    (k k' v : string) (t : Z) (tbl : list Sql.row) :
  (forall r r', conflict r r' = true -> Sql.key r = Sql.key r') ->
  k <> k' ->
  Sql.where_key k' (Sql.insert_or_replace conflict (Sql.Row k v t) tbl)
  = Sql.where_key k' tbl.
Proof.
  intros Hconf Hne. unfold Sql.where_key, Sql.insert_or_replace.
  rewrite List.filter_app, filter_filter. simpl.
  rewrite (proj2 (String.eqb_neq k k') Hne), app_nil_r.
  apply List.filter_ext. intros r.
  destruct (conflict (Sql.Row k v t) r) eqn:E; [|reflexivity].
  apply Hconf in E. simpl in E. subst k. simpl.
  symmetry. now apply String.eqb_neq.
Qed.

Lemma same_key_value_key (r r' : Sql.row) :
  Sql.same_key_value r r' = true -> Sql.key r = Sql.key r'.
Proof.
  unfold Sql.same_key_value. intros H. apply andb_true_iff in H as [H _].
  now apply String.eqb_eq.
Qed.

Lemma same_key_key (r r' : Sql.row) :
  Sql.same_key r r' = true -> Sql.key r = Sql.key r'.
Proof. apply String.eqb_eq. Qed.

Lemma in_where_key_insert_general (k v : string) (t : Z) (tbl : list Sql.row)
    (r : Sql.row) :
  In r (Sql.where_key k (Sql.insert_or_replace Sql.same_key_value (Sql.Row k v t) tbl))
  <-> r = Sql.Row k v t \/ (Sql.value r <> v /\ In r (Sql.where_key k tbl)).
Proof.
  rewrite where_key_insert_general, List.in_app_iff, List.filter_In. simpl.
  rewrite negb_true_iff, String.eqb_neq.
  split.
  - intros [[Hin Hv]|[<-|[]]]; [right; split; assumption | now left].
  - intros [->|[Hv Hin]]; [right; now left | left; split; assumption].
Qed.

(** The rows of the key after [executemany] of one row for each value. *)
Lemma in_where_key_executemany (k : string) (t : Z) (values : list string)
    (tbl : list Sql.row) (r : Sql.row) :
  In r (Sql.where_key k
          (Sql.executemany Sql.same_key_value
             (List.map (fun value => Sql.Row k value t) values) tbl))
  <-> (In (Sql.value r) values /\ r = Sql.Row k (Sql.value r) t)
      \/ (~ In (Sql.value r) values /\ In r (Sql.where_key k tbl)).
Proof.
  revert tbl. induction values as [|v values IH]; intros tbl; simpl.
  - tauto.
  - unfold Sql.executemany in *. rewrite IH, in_where_key_insert_general.
    assert (Hrv : r = Sql.Row k v t -> v = Sql.value r) by (now intros ->).
    destruct (in_dec string_dec (Sql.value r) values) as [Hin|Hnin];
      destruct (string_dec v (Sql.value r)) as [Hv|Hne];
      try (rewrite <- Hv in * ); intuition congruence.
Qed.

End TableMoreFacts.
Section CacheRestFacts.
Context {CacheType : Type}.
Variable serialize : CacheType -> string.

Lemma where_key_other_executemany (k k' : string) (t : Z) (values : list string)
    (tbl : list Sql.row) :
  k <> k' ->
  Sql.where_key k'
    (Sql.executemany Sql.same_key_value
       (List.map (fun value => Sql.Row k value t) values) tbl)
  = Sql.where_key k' tbl.
Proof.
  intros Hne. revert tbl. induction values as [|v values IH]; intros tbl; simpl.
  - reflexivity.
  - unfold Sql.executemany in *. rewrite IH.
    now apply where_key_other_insert; [apply same_key_value_key|].
Qed.

(** X1. After a write of [values] under a key, the exact lookup of the key
    returns the values that it returned before and the values written, and
    no other. *)
Theorem general_cache_accumulates (db : Sql.tables)
    (K : list (key_part CacheType)) (values : list string) (t : Z) (v : string) :
  In v (globaldb_get_general_cache_values serialize
          (globaldb_set_general_cache_values_at_ts serialize db K values t) K)
  <-> In v (globaldb_get_general_cache_values serialize db K) \/ In v values.
Proof.
  unfold globaldb_get_general_cache_values, globaldb_set_general_cache_values_at_ts.
  simpl. rewrite !List.in_map_iff. split.
  - intros (r & <- & Hr). apply in_where_key_executemany in Hr.
    destruct Hr as [[Hin _]|[_ Hr]]; [now right | left; now exists r].
  - intros [(r & <- & Hr)|Hin].
    + destruct (in_dec string_dec (Sql.value r) values) as [Hin|Hnin].
      * exists (Sql.Row (compute_cache_key serialize K) (Sql.value r) t).
        split; [reflexivity|]. apply in_where_key_executemany. left. now split.
      * exists r. split; [reflexivity|]. apply in_where_key_executemany.
        right. now split.
    + exists (Sql.Row (compute_cache_key serialize K) v t).
      split; [reflexivity|]. apply in_where_key_executemany. left. now split.
Qed.

(** X2. A write under one key changes nothing of what is read under a key
    that computes to another string: neither the values nor the oldest
    timestamp. *)
Theorem general_cache_write_other_key (db : Sql.tables)
    (K K' : list (key_part CacheType)) (values : list string) (t : Z) :
  compute_cache_key serialize K <> compute_cache_key serialize K' ->
  globaldb_get_general_cache_values serialize
    (globaldb_set_general_cache_values_at_ts serialize db K values t) K'
  = globaldb_get_general_cache_values serialize db K'
  /\ globaldb_get_general_cache_last_queried_ts_by_key serialize
       (globaldb_set_general_cache_values_at_ts serialize db K values t) K'
     = globaldb_get_general_cache_last_queried_ts_by_key serialize db K'.
Proof.
  intros Hne.
  unfold globaldb_get_general_cache_values,
    globaldb_get_general_cache_last_queried_ts_by_key,
    globaldb_set_general_cache_values_at_ts.
  simpl. now rewrite (where_key_other_executemany _ _ t values _ Hne).
Qed.

(** X3. When every value that the key held is written again, at the time [t],
    the oldest timestamp of the key becomes [t]: a write replaces the
    timestamp of a value, it does not keep the older one. *)
Theorem general_cache_rewrite_refreshes (db : Sql.tables)
    (K : list (key_part CacheType)) (values : list string) (t : Z) :
  values <> [] ->
  (forall v, In v (globaldb_get_general_cache_values serialize db K) -> In v values) ->
  globaldb_get_general_cache_last_queried_ts_by_key serialize
    (globaldb_set_general_cache_values_at_ts serialize db K values t) K
  = t.
Proof.
  intros Hne Hall.
  unfold globaldb_get_general_cache_last_queried_ts_by_key,
    globaldb_set_general_cache_values_at_ts, Sql.order_by_last_queried_ts,
    Sql.fetchone.
  simpl.
  set (rows := Sql.where_key _ _).
  assert (Hrows : forall r, In r rows -> Sql.last_queried_ts r = t).
  { intros r Hr. apply in_where_key_executemany in Hr.
    destruct Hr as [[_ ->]|[Hnin Hr]]; [reflexivity|].
    exfalso. apply Hnin, Hall.
    unfold globaldb_get_general_cache_values. now apply List.in_map. }
  assert (Hsome : rows <> []).
  { destruct values as [|v values]; [contradiction|].
    assert (Hin : In (Sql.Row (compute_cache_key serialize K) v t) rows).
    { apply in_where_key_executemany. left. split; [now left|reflexivity]. }
    intros E. rewrite E in Hin. destruct Hin. }
  destruct (head_sorted_nonempty Sql.last_queried_ts rows Hsome) as [x Hx].
  rewrite Hx. apply Hrows.
  now destruct (head_sorted_least Sql.last_queried_ts rows x Hx).
Qed.

End CacheRestFacts.

(** ** The constraints of the tables *)

Section ConstraintFacts.
Context {CacheType : Type}.
Variable serialize : CacheType -> string.

Lemma NoDup_map_filter {A B} (f : A -> B) (p : A -> bool) (l : list A) :
  NoDup (List.map f l) -> NoDup (List.map f (List.filter p l)).
Proof.
  induction l as [|x l IH]; simpl; intros H; [constructor|].
  apply NoDup_cons in H as [Hx Hl].
  destruct (p x); simpl; [|now apply IH].
  apply NoDup_cons. split; [|now apply IH].
  intros Hin. apply Hx.
  apply list_elem_of_In, List.in_map_iff in Hin as (y & Hy & Hin).
  apply List.filter_In in Hin as [Hin _].
  apply list_elem_of_In, List.in_map_iff. now exists y.
Qed.

(** An upsert keeps a table free of two rows with the same image under
    [f], when the rows in conflict are those with the image of the new
    row. *)
Lemma insert_or_replace_keeps_NoDup {B} (f : Sql.row -> B)
    (conflict : Sql.row -> Sql.row -> bool) (r : Sql.row) (tbl : list Sql.row) :
  (forall r', conflict r r' = false -> f r <> f r') ->
  NoDup (List.map f tbl) ->
  NoDup (List.map f (Sql.insert_or_replace conflict r tbl)).
Proof.
  intros Hconf Hnd. unfold Sql.insert_or_replace.
  rewrite List.map_app. apply NoDup_app. split; [|split].
  - now apply NoDup_map_filter.
  - intros x Hx Hr. simpl in Hr. apply list_elem_of_singleton in Hr. subst x.
    apply list_elem_of_In, List.in_map_iff in Hx as (r' & Heq & Hin).
    apply List.filter_In in Hin as [_ Hc]. apply negb_true_iff in Hc.
    now apply (Hconf r' Hc).
  - simpl. apply NoDup_singleton.
Qed.

Lemma same_key_value_false (r r' : Sql.row) :
  Sql.same_key_value r r' = false ->
  (Sql.key r, Sql.value r) <> (Sql.key r', Sql.value r').
Proof.
  unfold Sql.same_key_value. intros H [= Hk Hv].
  rewrite Hk, Hv, !String.eqb_refl in H. discriminate H.
Qed.

Lemma executemany_keeps_constraint (rs tbl : list Sql.row) :
  NoDup (List.map (fun r => (Sql.key r, Sql.value r)) tbl) ->
  NoDup (List.map (fun r => (Sql.key r, Sql.value r))
           (Sql.executemany Sql.same_key_value rs tbl)).
Proof.
  revert tbl. induction rs as [|r rs IH]; intros tbl H; simpl; [exact H|].
  apply IH. apply insert_or_replace_keeps_NoDup; [|exact H].
  apply same_key_value_false.
Qed.

Lemma constraint_values_NoDup (k : string) (tbl : list Sql.row) :
  NoDup (List.map (fun r => (Sql.key r, Sql.value r)) tbl) ->
  NoDup (List.map Sql.value (Sql.where_key k tbl)).
Proof.
  induction tbl as [|r tbl IH]; simpl; intros H; [constructor|].
  apply NoDup_cons in H as [Hr Htbl].
  destruct (String.eqb_spec (Sql.key r) k) as [Hk|Hk]; simpl; [|now apply IH].
  apply NoDup_cons. split; [|now apply IH].
  intros Hin. apply Hr.
  apply list_elem_of_In, List.in_map_iff in Hin as (r' & Hv & Hin).
  apply List.filter_In in Hin as [Hin Hk'].
  apply String.eqb_eq in Hk'.
  apply list_elem_of_In, List.in_map_iff. exists r'. split; [|exact Hin].
  congruence.
Qed.

(** X4. A write keeps the constraint of the general cache: no two rows with
    the same key and value; and under the constraint the exact lookup
    returns no value twice. *)
Theorem general_cache_constraint_kept (db : Sql.tables)
    (K : list (key_part CacheType)) (values : list string) (t : Z) :
  general_cache_constraint db ->
  general_cache_constraint
    (globaldb_set_general_cache_values_at_ts serialize db K values t)
  /\ forall K' : list (key_part CacheType),
      NoDup (globaldb_get_general_cache_values serialize
               (globaldb_set_general_cache_values_at_ts serialize db K values t) K').
Proof.
  intros H.
  assert (H' : general_cache_constraint
                 (globaldb_set_general_cache_values_at_ts serialize db K values t)).
  { unfold general_cache_constraint, globaldb_set_general_cache_values_at_ts.
    simpl. now apply executemany_keeps_constraint. }
  split; [exact H'|].
  intros K'. now apply constraint_values_NoDup.
Qed.

(** X5. What is written in the unique cache is read back, value and time,
    whatever the table held before; and a key with no row reads as [None]
    and as the time zero. *)
Theorem unique_cache_round_trip (db : Sql.tables)
    (K : list (key_part CacheType)) (value : string) (t : Z) :
  (globaldb_get_unique_cache_value serialize
     (globaldb_set_unique_cache_value_at_ts serialize db K value t) K = Some value
   /\ globaldb_get_unique_cache_last_queried_ts_by_key serialize
        (globaldb_set_unique_cache_value_at_ts serialize db K value t) K = t)
  /\ ((forall r, In r (Sql.unique_cache db) ->
                 Sql.key r <> compute_cache_key serialize K) ->
      globaldb_get_unique_cache_value serialize db K = None
      /\ globaldb_get_unique_cache_last_queried_ts_by_key serialize db K = 0).
Proof.
  unfold globaldb_get_unique_cache_value,
    globaldb_get_unique_cache_last_queried_ts_by_key,
    globaldb_set_unique_cache_value_at_ts.
  simpl. split.
  - rewrite where_key_insert_unique. split; reflexivity.
  - intros Habs. rewrite (where_key_absent _ _ Habs). split; reflexivity.
Qed.

(** X6. A write in the unique cache under one key changes nothing of what is
    read under a key that computes to another string. *)
Theorem unique_cache_write_other_key (db : Sql.tables)
    (K K' : list (key_part CacheType)) (value : string) (t : Z) :
  compute_cache_key serialize K <> compute_cache_key serialize K' ->
  globaldb_get_unique_cache_value serialize
    (globaldb_set_unique_cache_value_at_ts serialize db K value t) K'
  = globaldb_get_unique_cache_value serialize db K'
  /\ globaldb_get_unique_cache_last_queried_ts_by_key serialize
       (globaldb_set_unique_cache_value_at_ts serialize db K value t) K'
     = globaldb_get_unique_cache_last_queried_ts_by_key serialize db K'.
Proof.
  intros Hne.
  unfold globaldb_get_unique_cache_value,
    globaldb_get_unique_cache_last_queried_ts_by_key,
    globaldb_set_unique_cache_value_at_ts.
  simpl. rewrite where_key_other_insert; [split; reflexivity|apply same_key_key|exact Hne].
Qed.

(** X7. Every value that the exact lookup of a key returns is also returned by
    the prefix lookup of the same key parts, whatever characters the key
    holds. *)
Theorem exact_lookup_within_prefix_lookup (db : Sql.tables)
    (K : list (key_part CacheType)) (v : string) :
  In v (globaldb_get_general_cache_values serialize db K) ->
  In v (globaldb_get_general_cache_like serialize db K).
Proof.
  unfold globaldb_get_general_cache_values, globaldb_get_general_cache_like.
  rewrite !List.in_map_iff. intros (r & Hv & Hr). exists r. split; [exact Hv|].
  unfold Sql.where_key, Sql.where_key_like in *.
  apply List.filter_In in Hr as [Hin Hk]. apply List.filter_In. split; [exact Hin|].
  apply String.eqb_eq in Hk. rewrite Hk.
  rewrite <- (append_empty_r (compute_cache_key serialize K)) at 2.
  apply like_own_prefix.
Qed.

End ConstraintFacts.

(** ** More on the tokens of a curve pool *)

Section PoolMoreFacts.
Context {CacheType : Type}.
Variable serialize : CacheType -> string.
Variable CURVE_POOL_TOKENS : CacheType.
Variable ZERO_ADDRESS : string.

(** A beginning of the pattern with no [%] is matched character by
    character by the same beginning of the string. *)
Lemma like_literal_prefix (p r s : string) :
  percent_free p = true ->
  Sql.like (p ++ r) (p ++ s) = Sql.like r s.
Proof.
  induction p as [|c p IH]; intros Hp; [reflexivity|].
  simpl in Hp. apply andb_true_iff in Hp as [Hc Hp].
  apply negb_true_iff in Hc.
  change (String c p ++ r) with (String c (p ++ r)).
  change (String c p ++ s) with (String c (p ++ s)).
  simpl. rewrite Hc, Ascii.eqb_refl, orb_true_r. simpl. now apply IH.
Qed.

Lemma where_key_like_insert_miss (conflict : Sql.row -> Sql.row -> bool)
    (pat : string) (r : Sql.row) (tbl : list Sql.row) :
  (forall r', conflict r r' = true -> Sql.key r = Sql.key r') ->
  Sql.like pat (Sql.key r) = false ->
  Sql.where_key_like pat (Sql.insert_or_replace conflict r tbl)
  = Sql.where_key_like pat tbl.
Proof.
  intros Hconf Hr. unfold Sql.where_key_like, Sql.insert_or_replace.
  rewrite List.filter_app, filter_filter. simpl. rewrite Hr, app_nil_r.
  apply List.filter_ext. intros r'.
  destruct (conflict r r') eqn:E; [|reflexivity].
  apply Hconf in E. simpl. now rewrite <- E, Hr.
Qed.

Lemma lower_string_append (a b : string) :
  Sql.lower_string (a ++ b) = Sql.lower_string a ++ Sql.lower_string b.
Proof. induction a as [|c a IH]; simpl; [reflexivity | now rewrite IH]. Qed.

Lemma lower_string_length (a : string) :
  String.length (Sql.lower_string a) = String.length a.
Proof. induction a as [|c a IH]; simpl; [reflexivity | now rewrite IH]. Qed.

(** The pattern of one pool selects no key of another pool of the same
    width, when the tag holds no [%], the address no wildcard, and the
    two addresses differ by more than the case of their letters. *)
Lemma other_pool_key_not_selected (X Y s : string) :
  percent_free (serialize CURVE_POOL_TOKENS) = true ->
  Sql.wildcard_free X = true ->
  String.length X = String.length Y ->
  Sql.lower_string X <> Sql.lower_string Y ->
  Sql.like
    (compute_cache_key serialize [Tag CURVE_POOL_TOKENS; Raw X] ++ "%")
    (compute_cache_key serialize [Tag CURVE_POOL_TOKENS; Raw Y] ++ s)
  = false.
Proof.
  intros Htag HX Hlen Hne.
  assert (Hk : forall P, compute_cache_key serialize [Tag CURVE_POOL_TOKENS; Raw P]
                         = serialize CURVE_POOL_TOKENS ++ P).
  { intros P. rewrite !compute_cache_key_cons. simpl. now rewrite append_empty_r. }
  rewrite !Hk, !append_assoc, (like_literal_prefix _ _ _ Htag).
  rewrite (like_prefix X (Y ++ s) HX), lower_string_append.
  destruct (Py.startswith (Sql.lower_string Y ++ Sql.lower_string s)
              (Sql.lower_string X)) eqn:E; [|reflexivity].
  exfalso. apply Hne.
  apply (startswith_same_length (Sql.lower_string X) (Sql.lower_string Y) ""
           (Sql.lower_string s)).
  - now rewrite !lower_string_length.
  - now rewrite append_empty_r.
Qed.

(** X8. The tokens written for one pool are not read for another: the
    reader of [X] returns the same after the tokens of [Y] are written,
    when the serialization of the tag holds no [%], the address [X] holds
    no wildcard, and the two addresses have the same width and differ by
    more than the case of their letters. *)
Theorem read_curve_pool_tokens_other_pool (timestamp_of : nat -> Z)
    (db : Sql.tables) (X Y : string) (written : list (nat * string)) :
  percent_free (serialize CURVE_POOL_TOKENS) = true ->
  Sql.wildcard_free X = true ->
  String.length X = String.length Y ->
  Sql.lower_string X <> Sql.lower_string Y ->
  read_curve_pool_tokens serialize CURVE_POOL_TOKENS ZERO_ADDRESS
    (write_pool_tokens serialize CURVE_POOL_TOKENS timestamp_of Y written db) X
  = read_curve_pool_tokens serialize CURVE_POOL_TOKENS ZERO_ADDRESS db X.
Proof.
  intros Htag HX Hlen Hne.
  unfold read_curve_pool_tokens, globaldb_get_general_cache_keys_and_values_like.
  assert (Hrows :
    Sql.where_key_like
      (compute_cache_key serialize [Tag CURVE_POOL_TOKENS; Raw X] ++ "%")
      (Sql.general_cache
         (write_pool_tokens serialize CURVE_POOL_TOKENS timestamp_of Y written db))
    = Sql.where_key_like
        (compute_cache_key serialize [Tag CURVE_POOL_TOKENS; Raw X] ++ "%")
        (Sql.general_cache db)).
  { revert db. induction written as [|w written IH]; intros db; [reflexivity|].
    simpl. rewrite IH.
    unfold write_pool_token, globaldb_set_general_cache_values_at_ts. simpl.
    apply where_key_like_insert_miss; [apply same_key_value_key|].
    simpl. rewrite token_key. now apply other_pool_key_not_selected. }
  now rewrite Hrows.
Qed.

Lemma collect_all_integers (tokens_data : list (string * string))
    (found : list (Z * string)) :
  (forall key address, In (key, address) tokens_data ->
     Py.int_literal
       (Py.slice_from
          (BASE_POOL_TOKENS_KEY_LENGTH serialize CURVE_POOL_TOKENS ZERO_ADDRESS) key)
     <> None) ->
  exists found',
    collect_found_tokens serialize CURVE_POOL_TOKENS ZERO_ADDRESS tokens_data found
      = Py.Ok (found ++ found')%list
    /\ List.map snd found' = List.map snd tokens_data.
Proof.
  revert found. induction tokens_data as [|[k a] rest IH]; intros found Hall.
  - exists []. now rewrite app_nil_r.
  - simpl. unfold Py.int.
    destruct (Py.int_literal (Py.slice_from _ k)) as [z|] eqn:Ek.
    + simpl. destruct (IH (found ++ [(z, string_to_evm_address a)])%list)
        as (found' & Hc & Hm).
      { intros key address Hin. apply (Hall key address). now right. }
      exists ((z, string_to_evm_address a) :: found'). split.
      * rewrite Hc, <- app_assoc. reflexivity.
      * simpl. now rewrite Hm.
    + exfalso. apply (Hall k a); [now left|exact Ek].
Qed.

(** X9. When every key that the pattern of the pool selects has an integer
    after the prefix of fixed length, the reader returns a list, and this
    list holds the values of the selected rows, each as many times as it
    is stored: no token is dropped and none is made up. *)
Theorem read_curve_pool_tokens_returns_stored (db : Sql.tables)
    (pool_address : string) :
  let selected :=
    Sql.where_key_like
      (compute_cache_key serialize [Tag CURVE_POOL_TOKENS; Raw pool_address] ++ "%")
      (Sql.general_cache db) in
  (forall r, In r selected ->
     Py.int_literal
       (Py.slice_from
          (BASE_POOL_TOKENS_KEY_LENGTH serialize CURVE_POOL_TOKENS ZERO_ADDRESS)
          (Sql.key r)) <> None) ->
  exists tokens,
    read_curve_pool_tokens serialize CURVE_POOL_TOKENS ZERO_ADDRESS db pool_address
      = Py.Ok tokens
    /\ tokens ≡ₚ List.map Sql.value selected.
Proof.
  intros selected Hall.
  unfold read_curve_pool_tokens, globaldb_get_general_cache_keys_and_values_like.
  fold selected.
  destruct (collect_all_integers
              (List.map (fun r => (Sql.key r, Sql.value r)) selected) [])
    as (found & Hc & Hm).
  { intros key address Hin.
    apply List.in_map_iff in Hin as (r & [= <- <-] & Hr). now apply Hall. }
  rewrite Hc. simpl. eexists. split; [reflexivity|].
  rewrite List.map_map in Hm. simpl in Hm.
  transitivity (List.map snd found); [apply Permutation_map, sorted_perm|].
  rewrite Hm. reflexivity.
Qed.

Lemma append_same_length (a b s t : string) :
  String.length a = String.length b -> a ++ s = b ++ t -> a = b /\ s = t.
Proof.
  revert b. induction a as [|c a IH]; intros [|d b] Hlen Heq;
    simpl in *; try discriminate.
  - now split.
  - injection Heq as -> Heq. destruct (IH b) as [-> ->]; [congruence|exact Heq|].
    now split.
Qed.

(** X10. The key of a token tells the pool and the index: two token keys of
    pools of the same width are equal only for the same pool and the
    same index. *)
Theorem pool_token_key_injective (X Y : string) (i j : nat) :
  String.length X = String.length Y ->
  compute_cache_key serialize [Tag CURVE_POOL_TOKENS; Raw X; Raw (Py.str i)]
  = compute_cache_key serialize [Tag CURVE_POOL_TOKENS; Raw Y; Raw (Py.str j)] ->
  X = Y /\ i = j.
Proof.
  intros Hlen Heq.
  rewrite !compute_cache_key_cons in Heq. simpl in Heq.
  rewrite !append_empty_r in Heq.
  apply append_cancel_l in Heq.
  destruct (append_same_length X Y _ _ Hlen Heq) as [HX Hs].
  split; [exact HX|]. now apply str_injective.
Qed.

(** X11. The key does not keep the bounds of its parts: two strings in a row
    give the key of their concatenation as one part. *)
Theorem compute_cache_key_forgets_bounds (a b : string)
    (before rest : list (key_part CacheType)) :
  compute_cache_key serialize (before ++ Raw a :: Raw b :: rest)
  = compute_cache_key serialize (before ++ Raw (a ++ b) :: rest).
Proof.
  rewrite !compute_cache_key_append, !compute_cache_key_cons. simpl.
  now rewrite append_assoc.
Qed.

End PoolMoreFacts.

(** ** More on the rules manager *)

Section RulesMoreFacts.
Context {EventType EventSubType BaseEventSettings EventsAccountantCallback : Type}.
Variable get_event_type_identifier :
  EventType -> EventSubType -> option string -> Z.

#[local] Abbreviation rules_manager :=
  (@AccountingRulesManager BaseEventSettings EventsAccountantCallback).
#[local] Abbreviation rule_infos :=
  (list ((EventType * EventSubType * option string) * BaseEventSettings)).

(** The dictionary after the loop of [_query_db_rules]. *)
Lemma query_db_rules_lookup (rules_info : rule_infos) (self : rules_manager) (k : Z) :
  event_settings (_query_db_rules get_event_type_identifier rules_info self) !! k
  = match registered_rule get_event_type_identifier rules_info k with
    | Some rule => Some rule
    | None => event_settings self !! k
    end.
Proof.
  unfold _query_db_rules. simpl.
  generalize (event_settings self) as settings.
  induction rules_info as [|[[[ty sub] counterparty] rule] rest IH];
    intros settings; simpl.
  - reflexivity.
  - rewrite IH.
    destruct (registered_rule get_event_type_identifier rest k); [reflexivity|].
    destruct (Z.eqb_spec (get_event_type_identifier ty sub counterparty) k) as [->|Hne].
    + apply lookup_insert_eq.
    + now apply lookup_insert_ne.
Qed.

Lemma registered_rule_none (rules_info : rule_infos) (k : Z) :
  List.Forall (fun rule_info =>
                 rule_identifier get_event_type_identifier rule_info <> k) rules_info ->
  registered_rule get_event_type_identifier rules_info k = None.
Proof.
  induction 1 as [|rule_info rest Hne _ IH]; simpl; [reflexivity|].
  rewrite IH. now apply Z.eqb_neq in Hne as ->.
Qed.

Lemma registered_rule_last (before after : rule_infos)
    (ty : EventType) (sub : EventSubType) (counterparty : option string)
    (rule : BaseEventSettings) :
  List.Forall (fun rule_info =>
                 rule_identifier get_event_type_identifier rule_info
                 <> get_event_type_identifier ty sub counterparty) after ->
  registered_rule get_event_type_identifier
    (before ++ ((ty, sub, counterparty), rule) :: after)
    (get_event_type_identifier ty sub counterparty)
  = Some rule.
Proof.
  intros Hafter. induction before as [|b before IH]; simpl.
  - rewrite (registered_rule_none _ _ Hafter). now rewrite Z.eqb_refl.
  - now rewrite IH.
Qed.

(** X12. [reset] does not start from an empty dictionary of rules: a rule that
    the manager held under an identifier that no entry of the database
    has is still there after [reset]; after [clean_rules] and [reset] such
    an identifier has no rule. The callbacks are those of the
    aggregators. *)
Theorem reset_keeps_unlisted_rules (rules_info : rule_infos)
    (callbacks : gmap Z EventsAccountantCallback) (self : rules_manager) (k : Z) :
  List.Forall (fun rule_info =>
                 rule_identifier get_event_type_identifier rule_info <> k) rules_info ->
  event_settings (reset get_event_type_identifier rules_info callbacks self) !! k
    = event_settings self !! k
  /\ event_settings
       (reset get_event_type_identifier rules_info callbacks (clean_rules self)) !! k
     = None
  /\ event_callbacks (reset get_event_type_identifier rules_info callbacks self)
     = callbacks.
Proof.
  intros Hnone. unfold reset. simpl. split; [|split; [|reflexivity]].
  - change (fold_left _ rules_info (event_settings self))
      with (event_settings (_query_db_rules get_event_type_identifier rules_info self)).
    now rewrite query_db_rules_lookup, registered_rule_none.
  - change (fold_left _ rules_info ∅)
      with (event_settings
              (_query_db_rules get_event_type_identifier rules_info
                 (Manager ∅ (∅ : gmap Z EventsAccountantCallback)))).
    rewrite query_db_rules_lookup, registered_rule_none by exact Hnone.
    apply lookup_empty.
Qed.

(** X13. A rule of the database is found after [reset]: for the last entry of
    the list with its identifier, [get_event_settings] on an [EvmEvent] of
    the type, subtype and counterparty of the entry returns its rule, with
    the callback that the aggregators have under that identifier, whatever
    the manager held before. *)
Theorem reset_then_get_event_settings (before after : rule_infos)
    (callbacks : gmap Z EventsAccountantCallback) (self : rules_manager)
    (ty : EventType) (sub : EventSubType) (counterparty : option string)
    (rule : BaseEventSettings) :
  List.Forall (fun rule_info =>
                 rule_identifier get_event_type_identifier rule_info
                 <> get_event_type_identifier ty sub counterparty) after ->
  get_event_settings get_event_type_identifier
    (reset get_event_type_identifier
       (before ++ ((ty, sub, counterparty), rule) :: after) callbacks self)
    (EvmEvent ty sub counterparty)
  = (Some rule, callbacks !! get_event_type_identifier ty sub counterparty).
Proof.
  intros Hafter.
  unfold get_event_settings, get_event_settings_reads, reset. simpl.
  change (fold_left _ (before ++ _ :: after) (event_settings self))
    with (event_settings
            (_query_db_rules get_event_type_identifier
               (before ++ ((ty, sub, counterparty), rule) :: after) self)).
  rewrite query_db_rules_lookup, (registered_rule_last _ _ _ _ _ _ Hafter).
  reflexivity.
Qed.

(** X14. [reset] twice with the same rules and callbacks is [reset] once. *)
Theorem reset_idempotent (rules_info : rule_infos)
    (callbacks : gmap Z EventsAccountantCallback) (self : rules_manager) :
  reset get_event_type_identifier rules_info callbacks
    (reset get_event_type_identifier rules_info callbacks self)
  = reset get_event_type_identifier rules_info callbacks self.
Proof.
  unfold reset. f_equal. apply map_eq. intros k.
  rewrite !query_db_rules_lookup. simpl.
  change (fold_left _ rules_info (event_settings self))
    with (event_settings (_query_db_rules get_event_type_identifier rules_info self)).
  rewrite query_db_rules_lookup.
  now destruct (registered_rule get_event_type_identifier rules_info k).
Qed.

(** X15. A rule under the full identifier of an event is the one returned,
    for every kind of event, with the callback of that same identifier:
    the identifier without the counterparty is not read, for the rule nor
    for the callback. *)
Theorem get_event_settings_exact_tier (self : rules_manager)
    (event : history_event EventType EventSubType) (rule : BaseEventSettings) :
  event_settings self !! get_type_identifier get_event_type_identifier event true
    = Some rule ->
  get_event_settings_reads get_event_type_identifier self event
  = ((Some rule,
      event_callbacks self !! get_type_identifier get_event_type_identifier event true),
     [ReadSettings (get_type_identifier get_event_type_identifier event true);
      ReadCallbacks (get_type_identifier get_event_type_identifier event true)]).
Proof.
  intros Hrule. unfold get_event_settings_reads. rewrite Hrule.
  replace (bool_decide (is_Some (Some rule))) with true
    by (symmetry; apply bool_decide_eq_true; eauto).
  now rewrite orb_true_r.
Qed.

End RulesMoreFacts.

(** ** The header and the exchanges of a cointracking file *)

Section CointrackingFacts.
Import Cointracking.

Lemma remap_header_from_outcome (c : Z) (fieldnames : list string) :
  1 <= c <= 4 ->
  (c + Z.of_nat (List.length (cur_fields fieldnames)) <= 4 ->
   exists l, remap_header_from c fieldnames = Return l)
  /\ (4 < c + Z.of_nat (List.length (cur_fields fieldnames)) ->
      remap_header_from c fieldnames = Raise (KeyError (IntKey 4))).
Proof.
  revert c. induction fieldnames as [|f rest IH]; intros c Hc; simpl.
  - split; [eauto | lia].
  - unfold cur_fields in *. simpl.
    destruct (Py.startswith f "Cur.") eqn:Ef; simpl List.length.
    + assert (Hcases : (c <= 3 /\ exists name, mapping c = Return name)
                       \/ (c = 4 /\ mapping c = Raise (KeyError (IntKey 4)))).
      { assert (Hc' : c = 1 \/ c = 2 \/ c = 3 \/ c = 4) by lia.
        destruct Hc' as [-> | [-> | [-> | ->]]];
          [left; split; [lia|eexists; reflexivity] ..
          | right; split; reflexivity]. }
      destruct Hcases as [[Hc3 [name ->]] | [-> ->]].
      * destruct (IH (c + 1)) as [Hok Hko]; [lia|]. split; intros Hn.
        -- destruct Hok as [l ->]; [lia|eauto].
        -- rewrite Hko; [reflexivity|lia].
      * split; [lia | reflexivity].
    + destruct (IH c Hc) as [Hok Hko]. split; intros Hn.
      * destruct (Hok Hn) as [l ->]. eauto.
      * now rewrite (Hko Hn).
Qed.

(** X16. [remap_header] returns a header when at most three fields start with
    [Cur.], and raises [KeyError], of the key 4, when more do. *)
Theorem remap_header_outcome (fieldnames : list string) :
  ((List.length (cur_fields fieldnames) <= 3)%nat ->
   exists header, remap_header fieldnames = Return header)
  /\ ((3 < List.length (cur_fields fieldnames))%nat ->
      remap_header fieldnames = Raise (KeyError (IntKey 4))).
Proof.
  destruct (remap_header_from_outcome 1 fieldnames ltac:(lia)) as [Hok Hko].
  split; intros H; [apply Hok | apply Hko]; lia.
Qed.

Lemma mapping_name (c : Z) (name : string) :
  mapping c = Return name ->
  cur_names_from c = ("Cur." ++ name) :: cur_names_from (c + 1).
Proof.
  unfold mapping, cur_names_from.
  destruct (Z.eqb_spec c 1) as [->|H1]; [now intros [= <-]|].
  destruct (Z.eqb_spec c 2) as [->|H2]; [now intros [= <-]|].
  destruct (Z.eqb_spec c 3) as [->|H3]; [now intros [= <-]|].
  discriminate.
Qed.

Lemma remap_header_from_fields (c : Z) (fieldnames header : list string) :
  remap_header_from c fieldnames = Return header ->
  List.length header = List.length fieldnames
  /\ (forall i f, fieldnames !! i = Some f -> Py.startswith f "Cur." = false ->
                  header !! i = Some f)
  /\ cur_fields header
     = take (List.length (cur_fields fieldnames)) (cur_names_from c).
Proof.
  revert c header. induction fieldnames as [|f rest IH]; intros c header; simpl.
  - intros [= <-]. split; [reflexivity|].
    split; [intros i f H; discriminate H | reflexivity].
  - unfold cur_fields in *. simpl.
    destruct (Py.startswith f "Cur.") eqn:Ef.
    + destruct (mapping c) as [name|e] eqn:Em; [|discriminate].
      destruct (remap_header_from (c + 1) rest) as [l|e] eqn:El; [|discriminate].
      intros [= <-]. destruct (IH _ _ El) as (Hlen & Hkeep & Hcur).
      split; [simpl; now rewrite Hlen|]. split.
      * intros [|i] g Hg Hn; simpl in *; [congruence|now apply Hkeep].
      * simpl. replace (Py.startswith name "") with true by now destruct name.
        rewrite Hcur, (mapping_name c name Em). reflexivity.
    + destruct (remap_header_from c rest) as [l|e] eqn:El; [|discriminate].
      intros [= <-]. destruct (IH _ _ El) as (Hlen & Hkeep & Hcur).
      split; [simpl; now rewrite Hlen|]. split.
      * intros [|i] g Hg Hn; simpl in *; [congruence|now apply Hkeep].
      * simpl. rewrite Ef. exact Hcur.
Qed.

(** X17. A header that [remap_header] returns has the length of the field
    names; the fields that do not start with [Cur.] are where they were
    and as they were; and the others are, in this order, [Cur.Buy],
    [Cur.Sell] and [Cur.Fee]. *)
Theorem remap_header_fields (fieldnames header : list string) :
  remap_header fieldnames = Return header ->
  List.length header = List.length fieldnames
  /\ (forall i f, fieldnames !! i = Some f -> Py.startswith f "Cur." = false ->
                  header !! i = Some f)
  /\ cur_fields header
     = take (List.length (cur_fields fieldnames)) ["Cur.Buy"; "Cur.Sell"; "Cur.Fee"].
Proof. apply remap_header_from_fields. Qed.

Lemma remap_header_from_again (c : Z) (fieldnames header : list string) :
  remap_header_from c fieldnames = Return header ->
  remap_header_from c header = Return header.
Proof.
  revert c header. induction fieldnames as [|f rest IH]; intros c header; simpl.
  - now intros [= <-].
  - destruct (Py.startswith f "Cur.") eqn:Ef.
    + destruct (mapping c) as [name|e] eqn:Em; [|discriminate].
      destruct (remap_header_from (c + 1) rest) as [l|e] eqn:El; [|discriminate].
      intros [= <-]. simpl.
      replace (Py.startswith name "") with true by now destruct name.
      now rewrite Em, (IH _ _ El).
    + destruct (remap_header_from c rest) as [l|e] eqn:El; [|discriminate].
      intros [= <-]. simpl. now rewrite Ef, (IH _ _ El).
Qed.

(** X18. A header that [remap_header] returns is left as it is by
    [remap_header]. *)
Theorem remap_header_idempotent (fieldnames header : list string) :
  remap_header fieldnames = Return header ->
  remap_header header = Return header.
Proof. apply remap_header_from_again. Qed.

(** X19. [exchange_row_to_location] raises for the entries [ETH Transaction]
    and [BTC Transaction], and for no other; what it raises is
    [UnsupportedCSVEntry]. *)
Theorem exchange_row_to_location_raises (entry : string) :
  ((exists e, exchange_row_to_location entry = Raise e)
   <-> entry = "ETH Transaction" \/ entry = "BTC Transaction")
  /\ (forall e, exchange_row_to_location entry = Raise e ->
                exists msg, e = UnsupportedCSVEntry msg).
Proof.
  unfold exchange_row_to_location.
  repeat
    (match goal with
     | |- context [String.eqb entry ?s] =>
         destruct (String.eqb_spec entry s) as [->|?]
     end;
     [simpl; split;
      [split; [intros [e He]; try discriminate He; auto
              | intros [H|H]; try discriminate H; eauto]
      | intros e He; try discriminate He; injection He as <-; eauto]
     |]).
  simpl. split; [split|].
  - intros [e He]. discriminate He.
  - intros [H|H]; contradiction.
  - intros e He. discriminate He.
Qed.

End CointrackingFacts.

(** ** The loop of the import *)

Section ImportFacts.
Import Cointracking.
Context {State : Type}.
Variable consume : State -> gmap string string -> State * option exception.

Lemma fold_insert_absent (pairs : list (string * string))
    (d : gmap string string) (k : string) :
  ~ In k (List.map fst pairs) ->
  fold_left (fun d kv => <[fst kv := snd kv]> d) pairs d !! k = d !! k.
Proof.
  revert d. induction pairs as [|[k' v'] pairs IH]; intros d Hk; simpl.
  - reflexivity.
  - rewrite IH by (intros H; apply Hk; now right).
    apply lookup_insert_ne. intros ->. apply Hk. now left.
Qed.

Lemma fold_insert_zip (header row : list string) (d : gmap string string)
    (i : nat) (h : string) :
  NoDup header ->
  header !! i = Some h ->
  fold_left (fun d kv => <[fst kv := snd kv]> d) (List.combine header row) d !! h
  = match row !! i with
    | Some v => Some v
    | None => d !! h
    end.
Proof.
  revert row d i. induction header as [|h0 header IH]; intros row d i Hnd Hi.
  - destruct i; discriminate Hi.
  - apply NoDup_cons in Hnd as [Hh0 Hnd].
    destruct row as [|v0 row]; [now destruct i|].
    simpl. destruct i as [|i]; simpl in *.
    + injection Hi as ->. rewrite fold_insert_absent; [apply lookup_insert_eq|].
      intros Hin. apply Hh0, list_elem_of_In.
      apply List.in_map_iff in Hin as ([a b] & <- & Hin).
      now apply List.in_combine_l in Hin.
    + rewrite (IH row _ i Hnd Hi).
      destruct (row !! i); [reflexivity|].
      apply lookup_insert_ne. intros ->. apply Hh0.
      apply list_elem_of_lookup. eauto.
Qed.

(** X20. In the dictionary made of a header with no name twice and of a row,
    the name of the column [i] has the field [i] of the row, and no value
    when the row has no such field. *)
Theorem dict_zip_lookup (header row : list string) (i : nat) (h : string) :
  NoDup header ->
  header !! i = Some h ->
  dict_zip header row !! h = row !! i.
Proof.
  intros Hnd Hi. unfold dict_zip.
  rewrite (fold_insert_zip header row ∅ i h Hnd Hi).
  destruct (row !! i); [reflexivity | apply lookup_empty].
Qed.

(** X21. When every row is consumed with no exception, or with one of those
    that the loop handles with a warning, the loop returns, every row has
    been consumed, in order, and it has added at most one warning a row,
    after those that were there. *)
Theorem import_rows_goes_on (header : list string) (rows : list (list string))
    (st : State) (warnings : list string) :
  all_skipped consume header rows st = true ->
  exists added,
    import_rows consume header rows st warnings
      = ((consume_all consume header rows st, (warnings ++ added)%list), Return tt)
    /\ (List.length added <= List.length rows)%nat.
Proof.
  revert st warnings. induction rows as [|row rows IH]; intros st warnings Hall.
  - exists []. now rewrite app_nil_r.
  - simpl in *. unfold consume_all. simpl.
    destruct (consume st (dict_zip header row)) as [st' raised]. simpl.
    apply andb_true_iff in Hall as [Hrow Hall].
    destruct raised as [[]|]; try discriminate Hrow;
      match goal with
      | |- context [import_rows _ _ _ _ (warnings ++ [?w])%list] =>
          destruct (IH st' (warnings ++ [w])%list Hall) as (added & -> & Hlen);
          exists (w :: added); rewrite <- app_assoc; split; [reflexivity|simpl; lia]
      | |- _ =>
          destruct (IH st' warnings Hall) as (added & -> & Hlen);
          exists added; split; [reflexivity|simpl; lia]
      end.
Qed.

(** X22. When a row is consumed with a [KeyError], after rows with which the
    loop goes on, the loop raises [InputError] for this key and this row,
    in the state that the row has left, and the rows after it are not
    consumed. *)
Theorem import_rows_stops_at_key_error (header : list string)
    (before after : list (list string)) (row : list string)
    (st st' : State) (warnings : list string) (key : dict_key) :
  all_skipped consume header before st = true ->
  consume (consume_all consume header before st) (dict_zip header row)
    = (st', Some (KeyError key)) ->
  exists added,
    import_rows consume header (before ++ row :: after) st warnings
      = ((st', (warnings ++ added)%list), Raise (InputError key row))
    /\ (List.length added <= List.length before)%nat.
Proof.
  revert st warnings. induction before as [|b before IH]; intros st warnings Hall Hrow.
  - simpl in *. unfold consume_all in Hrow. simpl in Hrow. rewrite Hrow.
    exists []. now rewrite app_nil_r.
  - simpl in *. unfold consume_all in Hrow. simpl in Hrow.
    destruct (consume st (dict_zip header b)) as [st1 raised]. simpl in Hrow.
    apply andb_true_iff in Hall as [Hb Hall].
    destruct raised as [[]|]; try discriminate Hb;
      match goal with
      | |- context [import_rows _ _ _ _ (warnings ++ [?w])%list] =>
          destruct (IH st1 (warnings ++ [w])%list Hall Hrow) as (added & -> & Hlen);
          exists (w :: added); rewrite <- app_assoc; split; [reflexivity|simpl; lia]
      | |- _ =>
          destruct (IH st1 warnings Hall Hrow) as (added & -> & Hlen);
          exists added; split; [reflexivity|simpl; lia]
      end.
Qed.

(** X23. The loop lets out none of the exceptions that it catches: what it
    raises is [InputError], or an exception of
    [_consume_cointracking_entry] of another kind than the five caught. *)
Theorem import_rows_raises (header : list string) (rows : list (list string))
    (st : State) (warnings : list string) (e : exception) :
  snd (import_rows consume header rows st warnings) = Raise e ->
  caught e = false.
Proof.
  revert st warnings. induction rows as [|row rows IH]; intros st warnings; simpl.
  - discriminate.
  - destruct (consume st (dict_zip header row)) as [st' raised].
    destruct raised as [[]|]; simpl; try apply IH; now intros [= <-].
Qed.

(** X24. [_import_csv] on a file with no line raises [StopIteration], and on a
    file whose first line has more than three fields that start with
    [Cur.] it raises the [KeyError] of [remap_header]; in both cases no row
    is consumed and no warning added. *)
Theorem import_csv_header_errors (st : State) (warnings : list string) :
  _import_csv consume [] st warnings = ((st, warnings), Raise StopIteration)
  /\ forall (first : list string) (rows : list (list string)),
      (3 < List.length (cur_fields first))%nat ->
      _import_csv consume (first :: rows) st warnings
      = ((st, warnings), Raise (KeyError (IntKey 4))).
Proof.
  split; [reflexivity|].
  intros first rows Hcur. unfold _import_csv, remap_header.
  destruct (remap_header_from_outcome 1 first ltac:(lia)) as [_ Hko].
  rewrite Hko by lia. reflexivity.
Qed.

End ImportFacts.

(** ** The decoder of the liquity events *)

Section LiquityFacts.
Import Liquity.
Context {Asset Amount Rest ActionItem : Type} `{EqDecision Asset}.
Variable A_LUSD A_ETH : Asset.
Variable symbol : Asset -> string.
Variable amount_str : Amount -> string.
Variable get_tx_event_type_identifier :
  HistoryEventType -> HistoryEventSubType -> string -> string.

#[local] Abbreviation entry := (@HistoryBaseEntry Asset Amount Rest).
#[local] Abbreviation decode := (@decode_event Asset Amount Rest _ A_LUSD A_ETH symbol amount_str).
#[local] Abbreviation decode_log :=
  (@_decode_trove_operations Asset Amount Rest ActionItem _ A_LUSD A_ETH symbol amount_str).
#[local] Abbreviation settings := (event_settings get_tx_event_type_identifier).

(** What the body of the loop does to one event. *)
Lemma decode_event_cases (e : entry) :
  asset (decode e) = asset e
  /\ balance_amount (decode e) = balance_amount e
  /\ other_fields (decode e) = other_fields e
  /\ (decode e = e
      \/ (counterparty (decode e) = Some CPT_LIQUITY
          /\ (asset e = A_LUSD \/ asset e = A_ETH)
          /\ ((event_type (decode e), event_subtype (decode e))
              = (WITHDRAWAL, GENERATE_DEBT)
              \/ (event_type (decode e), event_subtype (decode e))
                 = (SPEND, PAYBACK_DEBT)
              \/ (event_type (decode e), event_subtype (decode e))
                 = (DEPOSIT, DEPOSIT_ASSET)
              \/ (event_type (decode e), event_subtype (decode e))
                 = (WITHDRAWAL, REMOVE_ASSET)))).
Proof.
  unfold decode_event.
  repeat (case_bool_decide; simpl); repeat split; auto 10.
Qed.

Lemma decode_event_again (e : entry) : decode (decode e) = decode e.
Proof.
  unfold decode_event.
  repeat (case_bool_decide; simpl in * ); try reflexivity; try congruence.
Qed.

(** X25. The decoder reads the first topic of the log: with no topic the call
    raises [IndexError]; with a first topic other than [BALANCE_UPDATE] it
    returns [(None, None)] and changes no event. *)
Theorem decode_trove_operations_other_log (tx_log : EthereumTxReceiptLog)
    (decoded_events : list entry) :
  (topics tx_log = [] -> decode_log tx_log decoded_events = RaiseIndexError)
  /\ (forall topic rest,
        topics tx_log = topic :: rest -> topic <> BALANCE_UPDATE ->
        decode_log tx_log decoded_events = Return ((None, None), decoded_events)).
Proof.
  unfold _decode_trove_operations. split.
  - now intros ->.
  - intros topic rest -> Hne. now rewrite bool_decide_eq_false_2.
Qed.

(** X26. The events that a call leaves are left as they are by a second call
    with the same log. *)
Theorem decode_trove_operations_idempotent (tx_log : EthereumTxReceiptLog)
    (decoded_events events' : list entry)
    (ret : option entry * option ActionItem) :
  decode_log tx_log decoded_events = Return (ret, events') ->
  decode_log tx_log events' = Return (ret, events').
Proof.
  unfold _decode_trove_operations.
  destruct (topics tx_log) as [|topic rest]; [discriminate|].
  destruct (negb (bool_decide (topic = BALANCE_UPDATE))); intros [= <- <-].
  - reflexivity.
  - rewrite List.map_map. do 2 f_equal.
    apply List.map_ext. intros e. apply decode_event_again.
Qed.

(** X27. A call returns [(None, None)] and keeps the number and the order of
    the events, and the asset, the amount and the other fields of each;
    an event is either left as it was or given the counterparty
    [liquity]; and an event of an asset other than LUSD and ETH is left
    as it was. *)
Theorem decode_trove_operations_keeps (tx_log : EthereumTxReceiptLog)
    (decoded_events events' : list entry)
    (ret : option entry * option ActionItem) :
  decode_log tx_log decoded_events = Return (ret, events') ->
  ret = (None, None)
  /\ List.length events' = List.length decoded_events
  /\ forall i e e',
      decoded_events !! i = Some e -> events' !! i = Some e' ->
      asset e' = asset e
      /\ balance_amount e' = balance_amount e
      /\ other_fields e' = other_fields e
      /\ (e' = e \/ counterparty e' = Some CPT_LIQUITY)
      /\ (asset e <> A_LUSD -> asset e <> A_ETH -> e' = e).
Proof.
  unfold _decode_trove_operations.
  destruct (topics tx_log) as [|topic rest]; [discriminate|].
  destruct (negb (bool_decide (topic = BALANCE_UPDATE))); intros [= <- <-].
  - split; [reflexivity|]. split; [reflexivity|].
    intros i e e' He He'. assert (e' = e) by congruence. subst e'. auto 10.
  - split; [reflexivity|]. split; [apply List.length_map|].
    intros i e e' He He'.
    change (List.map decode decoded_events) with (decode <$> decoded_events) in He'.
    rewrite list_lookup_fmap, He in He'. injection He' as <-.
    destruct (decode_event_cases e) as (Ha & Hb & Ho & Hc).
    repeat split; try assumption.
    + destruct Hc as [Hc|(Hc & _)]; auto.
    + intros H1 H2. destruct Hc as [Hc|(_ & [Hc|Hc] & _)]; [exact Hc|contradiction..].
Qed.

(** X28. Every event that the decoder changes gets a type and a subtype for
    which [event_settings] has an entry under the counterparty
    [liquity]. *)
Theorem decoded_events_have_settings (tx_log : EthereumTxReceiptLog)
    (decoded_events events' : list entry)
    (ret : option entry * option ActionItem) (i : nat) (e e' : entry) :
  decode_log tx_log decoded_events = Return (ret, events') ->
  decoded_events !! i = Some e ->
  events' !! i = Some e' ->
  e' <> e ->
  is_Some (settings
             !! get_tx_event_type_identifier (event_type e') (event_subtype e')
                  CPT_LIQUITY).
Proof.
  unfold _decode_trove_operations.
  destruct (topics tx_log) as [|topic rest]; [discriminate|].
  destruct (negb (bool_decide (topic = BALANCE_UPDATE))); intros [= <- <-] He He' Hne.
  - congruence.
  - change (List.map decode decoded_events) with (decode <$> decoded_events) in He'.
    rewrite list_lookup_fmap, He in He'. injection He' as <-.
    destruct (decode_event_cases e) as (_ & _ & _ & [Hc|(_ & _ & Hc)]);
      [contradiction|].
    unfold event_settings.
    destruct Hc as [Hc|[Hc|[Hc|Hc]]]; injection Hc as -> ->;
      rewrite ?lookup_insert; repeat case_decide; eauto;
      rewrite lookup_empty; congruence.
Qed.

End LiquityFacts.

(** ** The prefix lookup and the case of letters *)

Section PrefixLookupFacts.
Context {CacheType : Type}.
Variable serialize : CacheType -> string.

(** X29. When no piece of the key parts holds [%] or [_], the prefix
    lookup returns, in some order, the values of the rows of the general
    cache whose key starts with the computed key once the letters of the
    ASCII alphabet of both are put in lower case, and the values of no
    other row. *)
Theorem general_cache_like_up_to_case (db : Sql.tables)
    (key_parts : list (key_part CacheType)) :
  List.Forall (fun part => Sql.wildcard_free (emitted serialize part) = true)
    key_parts ->
  globaldb_get_general_cache_like serialize db key_parts
  ≡ₚ List.map Sql.value
       (List.filter
          (fun r => Py.startswith (Sql.lower_string (Sql.key r))
                      (Sql.lower_string (compute_cache_key serialize key_parts)))
          (Sql.general_cache db)).
Proof.
  intros Hfree. now rewrite (general_cache_like_selects serialize db key_parts Hfree).
Qed.

End PrefixLookupFacts.

(** ** The statements on the rest of the code, run on the cases *)

Section MoreRuns.

Lemma general_cache_like_up_to_case_run :
  globaldb_get_general_cache_like Sample.serialize Sample.db_with_case_variant
    [Raw "VELO"; Raw "0xab"]
  ≡ₚ [Sample.dai; Sample.usdc].
Proof.
  refine (general_cache_like_up_to_case Sample.serialize Sample.db_with_case_variant
            [Raw "VELO"; Raw "0xab"] _).
  repeat constructor.
Defined.

Lemma general_cache_accumulates_run :
  In Sample.usdt
    (globaldb_get_general_cache_values Sample.serialize
       (globaldb_set_general_cache_values_at_ts Sample.serialize Cases.db_two_values
          [Tag Sample.CURVE_LP_TOKENS; Raw Sample.pool_a] [Sample.usdt] 20)
       [Tag Sample.CURVE_LP_TOKENS; Raw Sample.pool_a]).
Proof.
  refine (proj2 (general_cache_accumulates Sample.serialize Cases.db_two_values
                   [Tag Sample.CURVE_LP_TOKENS; Raw Sample.pool_a]
                   [Sample.usdt] 20 Sample.usdt) _).
  right. left. reflexivity.
Defined.

Lemma general_cache_write_other_key_run :
  globaldb_get_general_cache_values Sample.serialize
    (globaldb_set_general_cache_values_at_ts Sample.serialize Cases.db_two_values
       [Tag Sample.CURVE_LP_TOKENS; Raw Sample.pool_b] [Sample.usdt] 20)
    [Tag Sample.CURVE_LP_TOKENS; Raw Sample.pool_a]
  = [Sample.dai; Sample.usdc].
Proof.
  refine (proj1 (general_cache_write_other_key Sample.serialize Cases.db_two_values
                   [Tag Sample.CURVE_LP_TOKENS; Raw Sample.pool_b]
                   [Tag Sample.CURVE_LP_TOKENS; Raw Sample.pool_a]
                   [Sample.usdt] 20 _)).
  discriminate.
Defined.

Lemma general_cache_rewrite_refreshes_run :
  globaldb_get_general_cache_last_queried_ts_by_key Sample.serialize
    (globaldb_set_general_cache_values_at_ts Sample.serialize Cases.db_two_values
       [Tag Sample.CURVE_LP_TOKENS; Raw Sample.pool_a]
       [Sample.usdc; Sample.dai; Sample.usdt] 30)
    [Tag Sample.CURVE_LP_TOKENS; Raw Sample.pool_a]
  = 30.
Proof.
  refine (general_cache_rewrite_refreshes Sample.serialize Cases.db_two_values
            [Tag Sample.CURVE_LP_TOKENS; Raw Sample.pool_a]
            [Sample.usdc; Sample.dai; Sample.usdt] 30 _ _).
  - discriminate.
  - intros v [<-|[<-|[]]]; simpl; auto.
Defined.

Lemma general_cache_constraint_kept_run :
  general_cache_constraint
    (globaldb_set_general_cache_values_at_ts Sample.serialize Sample.empty_db
       [Tag Sample.CURVE_LP_TOKENS; Raw Sample.pool_a] [Sample.dai; Sample.dai] 10).
Proof.
  refine (proj1 (general_cache_constraint_kept Sample.serialize Sample.empty_db
                   [Tag Sample.CURVE_LP_TOKENS; Raw Sample.pool_a]
                   [Sample.dai; Sample.dai] 10 _)).
  constructor.
Defined.

Lemma unique_cache_round_trip_run :
  globaldb_get_unique_cache_value Sample.serialize Sample.empty_db
    [Tag Sample.CURVE_LP_TOKENS; Raw Sample.pool_a] = None
  /\ globaldb_get_unique_cache_last_queried_ts_by_key Sample.serialize Sample.empty_db
       [Tag Sample.CURVE_LP_TOKENS; Raw Sample.pool_a] = 0.
Proof.
  refine (proj2 (unique_cache_round_trip Sample.serialize Sample.empty_db
                   [Tag Sample.CURVE_LP_TOKENS; Raw Sample.pool_a] Sample.dai 10) _).
  intros r [].
Defined.

Lemma unique_cache_write_other_key_run :
  globaldb_get_unique_cache_value Sample.serialize
    (globaldb_set_unique_cache_value_at_ts Sample.serialize
       (globaldb_set_unique_cache_value_at_ts Sample.serialize Sample.empty_db
          [Tag Sample.CURVE_LP_TOKENS; Raw Sample.pool_a] Sample.dai 10)
       [Tag Sample.CURVE_LP_TOKENS; Raw Sample.pool_b] Sample.usdc 20)
    [Tag Sample.CURVE_LP_TOKENS; Raw Sample.pool_a]
  = Some Sample.dai.
Proof.
  refine (proj1 (unique_cache_write_other_key Sample.serialize
                   (globaldb_set_unique_cache_value_at_ts Sample.serialize
                      Sample.empty_db
                      [Tag Sample.CURVE_LP_TOKENS; Raw Sample.pool_a] Sample.dai 10)
                   [Tag Sample.CURVE_LP_TOKENS; Raw Sample.pool_b]
                   [Tag Sample.CURVE_LP_TOKENS; Raw Sample.pool_a]
                   Sample.usdc 20 _)).
  discriminate.
Defined.

Lemma exact_lookup_within_prefix_lookup_run :
  In Sample.dai
    (globaldb_get_general_cache_like Sample.serialize Cases.db_two_values
       [Tag Sample.CURVE_LP_TOKENS; Raw Sample.pool_a]).
Proof.
  refine (exact_lookup_within_prefix_lookup Sample.serialize Cases.db_two_values
            [Tag Sample.CURVE_LP_TOKENS; Raw Sample.pool_a] Sample.dai _).
  left. reflexivity.
Defined.

Lemma read_curve_pool_tokens_other_pool_run :
  read_curve_pool_tokens Sample.serialize Sample.CURVE_POOL_TOKENS Sample.ZERO_ADDRESS
    (write_pool_tokens Sample.serialize Sample.CURVE_POOL_TOKENS (fun _ => 1700000100)
       Sample.pool_b [(0%nat, Sample.usdt)] Cases.db_pool_a)
    Sample.pool_a
  = Py.Ok [Sample.dai; Sample.usdc].
Proof.
  refine (read_curve_pool_tokens_other_pool Sample.serialize Sample.CURVE_POOL_TOKENS
            Sample.ZERO_ADDRESS (fun _ => 1700000100) Cases.db_pool_a
            Sample.pool_a Sample.pool_b [(0%nat, Sample.usdt)] _ _ _ _).
  - reflexivity.
  - reflexivity.
  - reflexivity.
  - intros H. vm_compute in H. discriminate H.
Defined.

Lemma read_curve_pool_tokens_returns_stored_run :
  exists tokens,
    read_curve_pool_tokens Sample.serialize Sample.CURVE_POOL_TOKENS Sample.ZERO_ADDRESS
      Cases.db_pool_a Sample.pool_a = Py.Ok tokens
    /\ tokens ≡ₚ [Sample.usdc; Sample.dai].
Proof.
  refine (read_curve_pool_tokens_returns_stored Sample.serialize
            Sample.CURVE_POOL_TOKENS Sample.ZERO_ADDRESS Cases.db_pool_a
            Sample.pool_a _).
  intros r [<-|[<-|[]]]; discriminate.
Defined.

Lemma pool_token_key_injective_run : Sample.pool_a = Sample.pool_a /\ 1%nat = 1%nat.
Proof.
  refine (pool_token_key_injective Sample.serialize Sample.CURVE_POOL_TOKENS
            Sample.pool_a Sample.pool_a 1 1 _ _); reflexivity.
Defined.

Lemma reset_keeps_unlisted_rules_run :
  event_settings
    (reset Sample.get_event_type_identifier Cases.rules_of_db
       Cases.callbacks_of_aggregators Cases.manager_with_old_rule)
    !! Sample.get_event_type_identifier Sample.SPEND Sample.FEE None
  = Some "rule for fees".
Proof.
  refine (proj1 (reset_keeps_unlisted_rules Sample.get_event_type_identifier
                   Cases.rules_of_db Cases.callbacks_of_aggregators
                   Cases.manager_with_old_rule
                   (Sample.get_event_type_identifier Sample.SPEND Sample.FEE None) _)).
  repeat constructor; discriminate.
Defined.

Lemma reset_then_get_event_settings_run :
  get_event_settings Sample.get_event_type_identifier
    (reset Sample.get_event_type_identifier Cases.rules_of_db
       Cases.callbacks_of_aggregators Cases.manager_with_old_rule)
    (EvmEvent Sample.RECEIVE Sample.FEE (Some "foo"))
  = (Some "rule for fees of foo", Some "callback for fees of foo").
Proof.
  refine (reset_then_get_event_settings Sample.get_event_type_identifier
            [((Sample.SPEND, Sample.NONE, None), "rule for spend")] []
            Cases.callbacks_of_aggregators Cases.manager_with_old_rule
            Sample.RECEIVE Sample.FEE (Some "foo") "rule for fees of foo" _).
  constructor.
Defined.

Lemma get_event_settings_exact_tier_run :
  get_event_settings_reads Sample.get_event_type_identifier
    Sample.manager_with_generic_rule (EvmEvent Sample.SPEND Sample.NONE None)
  = ((Some "rule for spend", Some "callback for spend"),
     [ReadSettings 11; ReadCallbacks 11]).
Proof.
  refine (get_event_settings_exact_tier Sample.get_event_type_identifier
            Sample.manager_with_generic_rule
            (EvmEvent Sample.SPEND Sample.NONE None) "rule for spend" _).
  reflexivity.
Defined.

Lemma remap_header_outcome_run :
  Cointracking.remap_header ("Cur." :: Cases.first_line)
  = Cointracking.Raise (Cointracking.KeyError (Cointracking.IntKey 4)).
Proof.
  refine (proj2 (remap_header_outcome ("Cur." :: Cases.first_line)) _).
  simpl. lia.
Defined.

Lemma remap_header_fields_run :
  List.length Cases.header = List.length Cases.first_line
  /\ (forall i f, Cases.first_line !! i = Some f ->
                  Py.startswith f "Cur." = false -> Cases.header !! i = Some f)
  /\ Cointracking.cur_fields Cases.header
     = take (List.length (Cointracking.cur_fields Cases.first_line))
         ["Cur.Buy"; "Cur.Sell"; "Cur.Fee"].
Proof.
  refine (remap_header_fields Cases.first_line Cases.header _).
  reflexivity.
Defined.

Lemma remap_header_idempotent_run :
  Cointracking.remap_header Cases.header = Cointracking.Return Cases.header.
Proof.
  refine (remap_header_idempotent Cases.first_line Cases.header _).
  reflexivity.
Defined.

Lemma exchange_row_to_location_raises_run :
  exists e, Cointracking.exchange_row_to_location "ETH Transaction"
            = Cointracking.Raise e.
Proof.
  refine (proj2 (proj1 (exchange_row_to_location_raises "ETH Transaction")) _).
  left. reflexivity.
Defined.

Lemma dict_zip_lookup_run :
  Cointracking.dict_zip Cases.header Cases.trade_row !! "Cur.Sell" = Some "EUR".
Proof.
  refine (dict_zip_lookup Cases.header Cases.trade_row 4 "Cur.Sell" _ _).
  - apply (bool_decide_unpack _). reflexivity.
  - reflexivity.
Defined.

Lemma import_rows_goes_on_run :
  exists added,
    Cointracking.import_rows Cases.consume Cases.header
      [Cases.odd_row; Cases.trade_row] [] []
    = ((Cointracking.consume_all Cases.consume Cases.header
          [Cases.odd_row; Cases.trade_row] [],
        ([] ++ added)%list),
       Cointracking.Return tt)
    /\ (List.length added <= 2)%nat.
Proof.
  refine (import_rows_goes_on Cases.consume Cases.header
            [Cases.odd_row; Cases.trade_row] [] [] _).
  vm_compute. reflexivity.
Defined.

Lemma import_rows_stops_at_key_error_run :
  exists added,
    Cointracking.import_rows Cases.consume Cases.header
      ([Cases.odd_row] ++ [] :: [Cases.trade_row]) [] []
    = (([], ([] ++ added)%list),
       Cointracking.Raise
         (Cointracking.InputError (Cointracking.StrKey "Type") []))
    /\ (List.length added <= 1)%nat.
Proof.
  refine (import_rows_stops_at_key_error Cases.consume Cases.header
            [Cases.odd_row] [Cases.trade_row] [] [] [] []
            (Cointracking.StrKey "Type") _ _).
  - vm_compute. reflexivity.
  - vm_compute. reflexivity.
Defined.

Lemma import_rows_raises_run :
  Cointracking.caught (Cointracking.InputError (Cointracking.StrKey "Type") [])
  = false.
Proof.
  refine (import_rows_raises Cases.consume Cases.header [[]] [] []
            (Cointracking.InputError (Cointracking.StrKey "Type") []) _).
  vm_compute. reflexivity.
Defined.

Lemma import_csv_header_errors_run :
  Cointracking._import_csv Cases.consume
    (("Cur." :: Cases.first_line) :: [Cases.trade_row]) [] []
  = (([], []), Cointracking.Raise (Cointracking.KeyError (Cointracking.IntKey 4))).
Proof.
  refine (proj2 (import_csv_header_errors Cases.consume [] [])
            ("Cur." :: Cases.first_line) [Cases.trade_row] _).
  simpl. lia.
Defined.

Lemma decode_trove_operations_other_log_run :
  Cases.decode_log Cases.other_log [Cases.lusd_received]
  = Liquity.Return ((None, None), [Cases.lusd_received]).
Proof.
  refine (proj2 (decode_trove_operations_other_log (ActionItem:=unit) "LUSD" "ETH"
                   (fun a => a) Cases.amount_str Cases.other_log
                   [Cases.lusd_received])
            [Byte.x00] [] _ _).
  - reflexivity.
  - discriminate.
Defined.

Lemma decode_trove_operations_idempotent_run :
  Cases.decode_log Cases.trove_log [Cases.lusd_generated; Cases.dai_received]
  = Liquity.Return ((None, None), [Cases.lusd_generated; Cases.dai_received]).
Proof.
  refine (decode_trove_operations_idempotent (ActionItem:=unit) "LUSD" "ETH"
            (fun a => a) Cases.amount_str Cases.trove_log
            [Cases.lusd_received; Cases.dai_received]
            [Cases.lusd_generated; Cases.dai_received] (None, None) _).
  vm_compute. reflexivity.
Defined.

Lemma decode_trove_operations_keeps_run :
  ((None, None) : option (@Liquity.HistoryBaseEntry string Z unit) * option unit)
  = (None, None)
  /\ List.length [Cases.lusd_generated; Cases.dai_received]
     = List.length [Cases.lusd_received; Cases.dai_received]
  /\ forall i e e',
      [Cases.lusd_received; Cases.dai_received] !! i = Some e ->
      [Cases.lusd_generated; Cases.dai_received] !! i = Some e' ->
      Liquity.asset e' = Liquity.asset e
      /\ Liquity.balance_amount e' = Liquity.balance_amount e
      /\ Liquity.other_fields e' = Liquity.other_fields e
      /\ (e' = e \/ Liquity.counterparty e' = Some Liquity.CPT_LIQUITY)
      /\ (Liquity.asset e <> "LUSD" -> Liquity.asset e <> "ETH" -> e' = e).
Proof.
  refine (decode_trove_operations_keeps (ActionItem:=unit) "LUSD" "ETH"
            (fun a => a) Cases.amount_str Cases.trove_log
            [Cases.lusd_received; Cases.dai_received]
            [Cases.lusd_generated; Cases.dai_received] (None, None) _).
  vm_compute. reflexivity.
Defined.

Lemma decoded_events_have_settings_run :
  is_Some
    (Liquity.event_settings Cases.get_tx_event_type_identifier
       !! Cases.get_tx_event_type_identifier Liquity.WITHDRAWAL Liquity.GENERATE_DEBT
            Liquity.CPT_LIQUITY).
Proof.
  refine (decoded_events_have_settings (ActionItem:=unit) "LUSD" "ETH"
            (fun a => a) Cases.amount_str Cases.get_tx_event_type_identifier
            Cases.trove_log
            [Cases.lusd_received; Cases.dai_received]
            [Cases.lusd_generated; Cases.dai_received] (None, None)
            0 Cases.lusd_received Cases.lusd_generated _ _ _ _).
  - vm_compute. reflexivity.
  - reflexivity.
  - reflexivity.
  - discriminate.
Defined.

End MoreRuns.
